(** * sw-cli: command dispatch and configuration assembly

    A shallow embedding of [packages/sw-cli/src/index.js] (class [SWCli]):
    the dispatcher [argv], the two handlers [handleFlag] and
    [handleCommand], and the two workflows [_generateSW] and
    [_generateBuildManifest].

    Promises are modelled by their settled outcome, the collaborators the
    file requires (prompts, config store, build library) by scripted
    outcomes, and every observable call by an event of a trace. *)

From Stdlib Require Import String Ascii List Bool Arith ZArith.
Import ListNotations.
Open Scope string_scope.

(** ** Node's [path] module, POSIX flavour

    [index.js] calls [path.join], [path.relative] and [path.sep] of the
    platform library.  The functions below follow Node's [lib/path.js]
    segment by segment: split on the separator, drop empty and ["."]
    segments, resolve [".."] against the segment before it. *)
Module Path.

Definition sep : string := "/".

Definition slash : ascii := "/"%char.

(** [s.split('/')]: never empty, [''.split('/')] is [['']]. *)
Fixpoint split (s : string) : list string :=
  match s with
  | EmptyString => [EmptyString]
  | String c rest =>
      if Ascii.eqb c slash then EmptyString :: split rest
      else match split rest with
           | [] => [String c EmptyString]
           | h :: t => String c h :: t
           end
  end.

(** [parts.join('/')] *)
Definition unsplit (parts : list string) : string := String.concat sep parts.

(** [res[res.length - 1] !== '..'] on a non-empty [res]. *)
Definition last_is_dotdot (res : list string) : bool :=
  String.eqb (last res "") "..".

(** One iteration of the loop of [normalizeArray]. *)
Definition normalizeStep (allowAboveRoot : bool)
           (res : list string) (p : string) : list string :=
  if String.eqb p "" || String.eqb p "." then res
  else if String.eqb p ".." then
    match res with
    | _ :: _ =>
        if last_is_dotdot res
        then (if allowAboveRoot then res ++ [".."] else res)
        else removelast res
    | [] => if allowAboveRoot then [".."] else []
    end
  else res ++ [p].

Definition normalizeArray (parts : list string) (allowAboveRoot : bool)
  : list string :=
  fold_left (normalizeStep allowAboveRoot) parts [].

(** [path[0] === '/'] *)
Definition isAbsolute (p : string) : bool :=
  match p with
  | String c _ => Ascii.eqb c slash
  | EmptyString => false
  end.

(** [path[path.length - 1] === '/'] (false on the empty string). *)
Fixpoint trailingSlash (p : string) : bool :=
  match p with
  | EmptyString => false
  | String c EmptyString => Ascii.eqb c slash
  | String _ rest => trailingSlash rest
  end.

Definition nonempty (s : string) : bool := negb (String.eqb s "").

Definition normalize (p : string) : string :=
  let abs := isAbsolute p in
  let trailing := trailingSlash p in
  let body := unsplit (normalizeArray (split p) (negb abs)) in
  let body := if negb (nonempty body) && negb abs then "." else body in
  let body := if nonempty body && trailing then body ++ "/" else body in
  (if abs then "/" else "") ++ body.

(** [path.join(...segments)]: the non-empty segments glued with the
    separator, then normalised. *)
Definition glue (acc segment : string) : string :=
  if nonempty segment
  then (if nonempty acc then acc ++ "/" ++ segment else segment)
  else acc.

Definition join (segments : list string) : string :=
  normalize (fold_left glue segments "").

(** [path.resolve(p)] for one argument; [cwd] is [process.cwd()]. *)
Definition resolve (cwd p : string) : string :=
  let r1 := if nonempty p then p ++ "/" else "" in
  let abs1 := if nonempty p then isAbsolute p else false in
  let r2 := if abs1 then r1
            else if nonempty cwd then cwd ++ "/" ++ r1 else r1 in
  let abs2 := if abs1 then true
              else if nonempty cwd then isAbsolute cwd else false in
  let body := unsplit (normalizeArray (split r2) (negb abs2)) in
  let out := (if abs2 then "/" else "") ++ body in
  if nonempty out then out else ".".

(** [s.substr(1)] *)
Definition substr1 (s : string) : string :=
  match s with
  | EmptyString => EmptyString
  | String _ rest => rest
  end.

(** The [trim] helper of [relative]: empty segments are removed from
    both ends of the array. *)
Fixpoint trimStart (l : list string) : list string :=
  match l with
  | [] => []
  | h :: t => if nonempty h then l else trimStart t
  end.

Definition trim (l : list string) : list string :=
  rev (trimStart (rev (trimStart l))).

(** Drops the longest common prefix of the two segment lists. *)
Fixpoint dropCommon (fromParts toParts : list string)
  : list string * list string :=
  match fromParts, toParts with
  | f :: fs, t :: ts =>
      if String.eqb f t then dropCommon fs ts else (fromParts, toParts)
  | _, _ => (fromParts, toParts)
  end.

Definition relative (cwd from to : string) : string :=
  let fromParts := trim (split (substr1 (resolve cwd from))) in
  let toParts := trim (split (substr1 (resolve cwd to))) in
  let '(fromRest, toRest) := dropCommon fromParts toParts in
  unsplit (map (fun _ => "..") fromRest ++ toRest).

End Path.

(** ** JavaScript values

    The values the program meets: what [minimist] stores in its result
    (a flag is [true] or [false], a string, a number or an array of
    those, and is [undefined] when absent; a positional token is a string
    or a number) and what a saved configuration, read from a file, may
    hold in a field (any JSON value).

    A number is kept by the two things the program can observe of it:
    [falsy] tells whether it is [0] or [NaN], and [shown] is the text its
    string conversion gives.  An object is kept opaque. *)
#[warnings="-register-all"] Inductive jsval : Type :=
| JUndefined
| JNull
| JBool (b : bool)
| JNum (falsy : bool) (shown : string)
| JStr (s : string)
| JArr (items : list jsval)
| JObject.

(** Truthiness, as tested by [if (x)], [!x] and [a || b]. *)
Definition truthy (v : jsval) : bool :=
  match v with
  | JUndefined => false
  | JNull => false
  | JBool b => b
  | JNum falsy _ => negb falsy
  | JStr s => negb (String.eqb s "")
  | JArr _ => true
  | JObject => true
  end.

(** [a || b] evaluates to [a] when it is truthy and to [b] otherwise. *)
Definition js_or (a b : jsval) : jsval := if truthy a then a else b.

(** String conversion, as done by a template literal. *)
Fixpoint toString (v : jsval) : string :=
  match v with
  | JUndefined => "undefined"
  | JNull => "null"
  | JBool true => "true"
  | JBool false => "false"
  | JNum _ shown => shown
  | JStr s => s
  | JArr items =>
      String.concat ","
        (map (fun item => match item with
                          | JUndefined => ""
                          | JNull => ""
                          | _ => toString item
                          end) items)
  | JObject => "[object Object]"
  end.

(** Strict equality of a value with a string literal, as used by the
    [case] labels of a [switch]. *)
Definition strictEqStr (v : jsval) (lit : string) : bool :=
  match v with
  | JStr s => String.eqb s lit
  | _ => false
  end.

(** An array of strings. *)
Definition jstrings (l : list string) : jsval := JArr (map JStr l).

(** ** Data model *)

(** The result of [minimist(argv)]: [positional] is the array [cliArgs._],
    the four flags are the properties [h], [help], [v] and [version]. *)
Record CliArgs : Type := mkCliArgs {
  positional : list jsval;
  flag_h : jsval;
  flag_help : jsval;
  flag_v : jsval;
  flag_version : jsval
}.

(** The configuration object, by the five properties the program reads
    or writes.  It starts empty or is the object read from the saved
    file, so a property holds any value; [JUndefined] is a property that
    is absent. *)
Record Config : Type := mkConfig {
  rootDirectory : jsval;
  globPatterns : jsval;
  globIgnores : jsval;
  dest : jsval;
  wasSaved : jsval
}.

(** [let config = {}] *)
Definition emptyConfig : Config :=
  mkConfig JUndefined JUndefined JUndefined JUndefined JUndefined.

(** The assignments the program makes: a string to [rootDirectory] and
    [dest], an array of strings to [globPatterns] and [globIgnores],
    [true] to [wasSaved]. *)
Definition set_rootDirectory (x : string) (c : Config) : Config :=
  mkConfig (JStr x) (globPatterns c) (globIgnores c) (dest c) (wasSaved c).

Definition set_globPatterns (x : list string) (c : Config) : Config :=
  mkConfig (rootDirectory c) (jstrings x) (globIgnores c) (dest c) (wasSaved c).

Definition set_globIgnores (x : list string) (c : Config) : Config :=
  mkConfig (rootDirectory c) (globPatterns c) (jstrings x) (dest c) (wasSaved c).

Definition set_dest (x : string) (c : Config) : Config :=
  mkConfig (rootDirectory c) (globPatterns c) (globIgnores c) (JStr x) (wasSaved c).

Definition set_wasSaved (x : bool) (c : Config) : Config :=
  mkConfig (rootDirectory c) (globPatterns c) (globIgnores c) (dest c) (JBool x).

(** ** Promises, events and runs *)

(** A settled promise.  The rejection reason is never inspected. *)
Inductive outcome (A : Type) : Type :=
| Resolved (a : A)
| Rejected.
Arguments Resolved {A} a.
Arguments Rejected {A}.

Definition isResolved {A : Type} (o : outcome A) : bool :=
  match o with
  | Resolved _ => true
  | Rejected => false
  end.

(** What a run does to the outside, in order. *)
Inductive event : Type :=
| UpdateNotify
| Log (text : string)
| LogError (text : string)
| GetConfigFile
| AskForRootOfWebApp
| AskForExtensionsToCache (root : jsval)
| AskForServiceWorkerName
| AskSaveConfigFile
| AskManifestFileName
| SaveConfigFile (config : Config)
| GenerateSW (config : Config)
| GenerateFileManifest (config : Config)
| Exit (code : Z).

(** A promise chain that has run: its events and its outcome. *)
Definition Run (A : Type) : Type := (list event * outcome A)%type.

Definition ret {A : Type} (a : A) : Run A := ([], Resolved a).

Definition reject {A : Type} : Run A := ([], Rejected).

(** [p.then(k)]: [k] runs only when [p] resolves; a rejection skips it. *)
Definition andThen {A B : Type} (p : Run A) (k : A -> Run B) : Run B :=
  match p with
  | (t, Resolved a) => let '(t', r) := k a in ((t ++ t')%list, r)
  | (t, Rejected) => (t, Rejected)
  end.

(** A call to a collaborator: the call is observed, its promise returned. *)
Definition call {A : Type} (e : event) (p : outcome A) : Run A := ([e], p).

(** A synchronous effect. *)
Definition emit (e : event) : Run unit := ([e], Resolved tt).

Notation "x <- p ;; k" := (andThen p (fun x => k))
  (at level 61, p at next level, right associativity).

Definition trace {A : Type} (r : Run A) : list event := fst r.

Definition settled {A : Type} (r : Run A) : outcome A := snd r.

(** The modules [index.js] requires from [./lib] and from [sw-build], by
    the outcome of the promise each returns. *)
Record Collaborators : Type := mkCollaborators {
  getConfigFile : outcome (option Config);
  askForRootOfWebApp : outcome string;
  askForExtensionsToCache : jsval -> outcome (list string);
  askForServiceWorkerName : outcome string;
  askSaveConfigFile : outcome bool;
  askManifestFileName : outcome string;
  saveConfigFile : Config -> outcome unit;
  generateSW : Config -> outcome unit;
  generateFileManifest : Config -> outcome unit
}.

(** ** The class [SWCli] *)
Section SWCli.

(** The contents of [cli-help.txt] and [pkg.version]. *)
Variable helpText : string.
Variable pkgVersion : string.

(** [./lib/utils/generate-glob-pattern], a pure function; its first
    argument is whatever [rootDirectory] holds. *)
Variable generateGlobPattern : jsval -> list string -> string.

(** [process.cwd()] *)
Variable cwd : string.

(** [minimist], the argument parser. *)
Variable minimist : list string -> CliArgs.

Variable io : Collaborators.

Definition printHelpText : Run unit := emit (Log helpText).

Definition handleFlag (flags : CliArgs) : Run unit :=
  handled1 <- (if truthy (js_or (flag_h flags) (flag_help flags))
               then (_ <- printHelpText ;; ret true)
               else ret false) ;;
  handled2 <- (if truthy (js_or (flag_v flags) (flag_version flags))
               then (_ <- emit (Log pkgVersion) ;; ret true)
               else ret handled1) ;;
  if handled2 : bool then ret tt
  else (_ <- printHelpText ;; reject).

(** Step 1: the saved configuration, when there is one, becomes the
    configuration and is marked. *)
Definition loadSavedConfig : Run Config :=
  savedConfig <- call GetConfigFile (getConfigFile io) ;;
  match savedConfig with
  | Some c => ret (set_wasSaved true c)
  | None => ret emptyConfig
  end.

(** The value assigned to [config.rootDirectory]. *)
Definition prettyRoot (rDirectory : string) : string :=
  Path.join ["."; Path.relative cwd cwd rDirectory; Path.sep].

Definition ensureRootDirectory (config : Config) : Run Config :=
  if negb (truthy (rootDirectory config)) then
    rDirectory <- call AskForRootOfWebApp (askForRootOfWebApp io) ;;
    ret (set_rootDirectory (prettyRoot rDirectory) config)
  else ret config.

Definition ensureGlobPatterns (config : Config) : Run Config :=
  if negb (truthy (globPatterns config)) then
    extensionsToCache <-
      call (AskForExtensionsToCache (rootDirectory config))
           (askForExtensionsToCache io (rootDirectory config)) ;;
    ret (set_globPatterns
           [generateGlobPattern (rootDirectory config) extensionsToCache]
           config)
  else ret config.

(** [path.join] throws a [TypeError] on a segment that is not a string;
    inside a [then] callback that is a rejection. *)
Definition ensureDest (config : Config) : Run Config :=
  if negb (truthy (dest config)) then
    swName <- call AskForServiceWorkerName (askForServiceWorkerName io) ;;
    match rootDirectory config with
    | JStr root =>
        let swDest := Path.join [root; swName] in
        ret (set_globIgnores [swDest] (set_dest swDest config))
    | _ => reject
    end
  else ret config.

Definition askWhetherToSave (config : Config) : Run bool :=
  if negb (truthy (wasSaved config))
  then call AskSaveConfigFile (askSaveConfigFile io)
  else ret false.

Definition saveIfAsked (config : Config) (saveConfig : bool) : Run unit :=
  if saveConfig
  then call (SaveConfigFile config) (saveConfigFile io config)
  else ret tt.

(** The chain of [_generateSW] up to the save question. *)
Definition assembleConfig : Run Config :=
  config <- loadSavedConfig ;;
  config <- ensureRootDirectory config ;;
  config <- ensureGlobPatterns config ;;
  ensureDest config.

Definition _generateSW : Run unit :=
  config <- assembleConfig ;;
  saveConfig <- askWhetherToSave config ;;
  _ <- saveIfAsked config saveConfig ;;
  call (GenerateSW config) (generateSW io config).

(** The object literal handed to [swBuild.generateFileManifest]. *)
Definition manifestConfig (rootDirPath : string)
           (fileExtentionsToCache : list string)
           (fileManifestName : string) : Config :=
  let globPattern :=
    generateGlobPattern (JStr rootDirPath) fileExtentionsToCache in
  mkConfig (JStr rootDirPath)
           (jstrings [globPattern])
           (jstrings [Path.join [rootDirPath; fileManifestName]])
           (JStr (Path.join [rootDirPath; fileManifestName]))
           JUndefined.

Definition _generateBuildManifest : Run unit :=
  rootDirPath <- call AskForRootOfWebApp (askForRootOfWebApp io) ;;
  fileExtentionsToCache <-
    call (AskForExtensionsToCache (JStr rootDirPath))
         (askForExtensionsToCache io (JStr rootDirPath)) ;;
  fileManifestName <- call AskManifestFileName (askManifestFileName io) ;;
  let config :=
    manifestConfig rootDirPath fileExtentionsToCache fileManifestName in
  call (GenerateFileManifest config) (generateFileManifest io config).

Definition handleCommand (command : jsval) (args : list jsval)
           (flags : CliArgs) : Run unit :=
  if strictEqStr command "generate:sw" then _generateSW
  else if strictEqStr command "generate:manifest" then _generateBuildManifest
  else
    _ <- emit (LogError ("Invlaid command given '" ++ toString command ++ "'")) ;;
    reject.

(** [.then(() => process.exit(0)).catch(() => process.exit(1))] *)
Definition exitWith (handler : Run unit) : list event * Z :=
  let code := if isResolved (settled handler) then 0%Z else 1%Z in
  ((trace handler ++ [Exit code])%list, code).

(** [cliArgs._.splice(1)] leaves only the command in [cliArgs._]. *)
Definition afterSplice (cliArgs : CliArgs) (command : jsval) : CliArgs :=
  mkCliArgs [command] (flag_h cliArgs) (flag_help cliArgs)
            (flag_v cliArgs) (flag_version cliArgs).

(** [argv]: the events of the run and the status the process exits
    with. *)
Definition argv (rawArgv : list string) : list event * Z :=
  let cliArgs := minimist rawArgv in
  let '(t, code) :=
    match positional cliArgs with
    | command :: args =>
        exitWith (handleCommand command args (afterSplice cliArgs command))
    | [] => exitWith (handleFlag cliArgs)
    end in
  (UpdateNotify :: t, code).

End SWCli.

(** ** Sample collaborators

    Scripted runs used to exercise the statements below. *)

(** A glob builder in the style of [generate-glob-pattern]. *)
Definition sampleGlob (root : jsval) (extensions : list string)
  : string :=
  match root with
  | JStr r => r ++ "**/*.{" ++ String.concat "," extensions ++ "}"
  | _ => "**/*.{" ++ String.concat "," extensions ++ "}"
  end.

Definition sampleCwd : string := "/home/dev/app".

(** No saved configuration; the user answers [build], [js] and [css],
    [sw.js], and declines to save. *)
Definition freshRun : Collaborators :=
  mkCollaborators (Resolved None) (Resolved "build")
                  (fun _ => Resolved ["js"; "css"]) (Resolved "sw.js")
                  (Resolved false) (Resolved "manifest.js")
                  (fun _ => Resolved tt) (fun _ => Resolved tt)
                  (fun _ => Resolved tt).

(** As [freshRun], but the user accepts to save. *)
Definition savingRun : Collaborators :=
  mkCollaborators (Resolved None) (Resolved "build")
                  (fun _ => Resolved ["js"; "css"]) (Resolved "sw.js")
                  (Resolved true) (Resolved "manifest.js")
                  (fun _ => Resolved tt) (fun _ => Resolved tt)
                  (fun _ => Resolved tt).

(** A saved configuration as [_generateSW] itself writes it. *)
Definition completeConfig : Config :=
  mkConfig (JStr "build/") (jstrings ["build/**/*.{js,css}"])
           (jstrings ["build/sw.js"]) (JStr "build/sw.js") JUndefined.

Definition savedRun : Collaborators :=
  mkCollaborators (Resolved (Some completeConfig)) Rejected
                  (fun _ => Rejected) Rejected Rejected Rejected
                  (fun _ => Resolved tt) (fun _ => Resolved tt)
                  (fun _ => Resolved tt).

(** A saved configuration that names its output but lists nothing to
    ignore. *)
Definition bareConfig : Config :=
  mkConfig (JStr "./") (jstrings ["**/*.js"]) JUndefined (JStr "sw.js")
           JUndefined.

Definition bareRun : Collaborators :=
  mkCollaborators (Resolved (Some bareConfig)) Rejected
                  (fun _ => Rejected) Rejected Rejected Rejected
                  (fun _ => Resolved tt) (fun _ => Resolved tt)
                  (fun _ => Resolved tt).

(** As [savingRun], but the config store fails to write. *)
Definition failingSaveRun : Collaborators :=
  mkCollaborators (Resolved None) (Resolved "build")
                  (fun _ => Resolved ["js"; "css"]) (Resolved "sw.js")
                  (Resolved true) (Resolved "manifest.js")
                  (fun _ => Rejected) (fun _ => Resolved tt)
                  (fun _ => Resolved tt).

(** A saved configuration, edited by hand, whose [rootDirectory] is the
    number 5 and which names no output. *)
Definition numericRootConfig : Config :=
  mkConfig (JNum false "5") (jstrings ["**/*.js"]) JUndefined JUndefined
           JUndefined.

Definition numericRootRun : Collaborators :=
  mkCollaborators (Resolved (Some numericRootConfig)) (Resolved "build")
                  (fun _ => Resolved ["js"; "css"]) (Resolved "sw.js")
                  (Resolved false) (Resolved "manifest.js")
                  (fun _ => Resolved tt) (fun _ => Resolved tt)
                  (fun _ => Resolved tt).

(** A saved configuration that lists a file to ignore but names no
    output. *)
Definition staleIgnoresConfig : Config :=
  mkConfig (JStr "build/") (jstrings ["build/**/*.js"])
           (jstrings ["old.js"]) JUndefined JUndefined.

Definition staleIgnoresRun : Collaborators :=
  mkCollaborators (Resolved (Some staleIgnoresConfig)) Rejected
                  (fun _ => Rejected) (Resolved "sw.js") Rejected Rejected
                  (fun _ => Resolved tt) (fun _ => Resolved tt)
                  (fun _ => Resolved tt).

Definition noFlags (tokens : list jsval) : CliArgs :=
  mkCliArgs tokens JUndefined JUndefined JUndefined JUndefined.

(** ** [minimist] on plain command lines

    [index.js] calls [minimist] without options.  The model below
    follows [minimist]'s loop on the command lines made of the four flags
    of the dispatcher, each given at most once, and of words; it answers
    [None] on every other command line (flags joined or given a value
    with [=], [--no-] forms, numbers, repeated flags, [--]). *)

Definition isLetter (c : ascii) : bool :=
  let n := nat_of_ascii c in
  (Nat.leb 65 n && Nat.leb n 90) || (Nat.leb 97 n && Nat.leb n 122).

(** A word starts with a letter, so it is neither a flag nor a number;
    [true] and [false] are left out. *)
Definition isWord (token : string) : bool :=
  match token with
  | String c _ =>
      isLetter c && negb (String.eqb token "true")
      && negb (String.eqb token "false")
  | EmptyString => false
  end.

Definition isFlagToken (token : string) : bool :=
  String.eqb token "-h" || String.eqb token "--help"
  || String.eqb token "-v" || String.eqb token "--version".

(** The value stored under the key of a flag. *)
Definition flagValue (token : string) (acc : CliArgs) : jsval :=
  if String.eqb token "-h" then flag_h acc
  else if String.eqb token "--help" then flag_help acc
  else if String.eqb token "-v" then flag_v acc
  else flag_version acc.

(** [setArg(key, value)] on a key that is not set yet. *)
Definition setFlag (token : string) (value : jsval) (acc : CliArgs) : CliArgs :=
  if String.eqb token "-h" then
    mkCliArgs (positional acc) value (flag_help acc) (flag_v acc) (flag_version acc)
  else if String.eqb token "--help" then
    mkCliArgs (positional acc) (flag_h acc) value (flag_v acc) (flag_version acc)
  else if String.eqb token "-v" then
    mkCliArgs (positional acc) (flag_h acc) (flag_help acc) value (flag_version acc)
  else
    mkCliArgs (positional acc) (flag_h acc) (flag_help acc) (flag_v acc) value.

(** [argv._.push(arg)] *)
Definition pushPositional (token : string) (acc : CliArgs) : CliArgs :=
  mkCliArgs (positional acc ++ [JStr token])%list (flag_h acc) (flag_help acc)
            (flag_v acc) (flag_version acc).

(** The loop over the tokens: a flag whose next token is a word takes
    that word as its value and skips it; any other flag is [true]; a
    word that no flag took is positional. *)
Fixpoint parsePlain (tokens : list string) (acc : CliArgs) : option CliArgs :=
  match tokens with
  | [] => Some acc
  | token :: rest =>
      if isFlagToken token then
        match flagValue token acc with
        | JUndefined =>
            match rest with
            | next :: rest' =>
                if isWord next
                then parsePlain rest' (setFlag token (JStr next) acc)
                else parsePlain rest (setFlag token (JBool true) acc)
            | [] => Some (setFlag token (JBool true) acc)
            end
        | _ => None
        end
      else if isWord token then parsePlain rest (pushPositional token acc)
      else None
  end.

(** [minimist(argv)] on a plain command line. *)
Definition minimistPlain (rawArgv : list string) : option CliArgs :=
  parsePlain rawArgv (noFlags []).

(** A parser that is [minimist] on the plain command lines and reports
    no argument at all on the others, where it stands for nothing. *)
Definition plainParser (rawArgv : list string) : CliArgs :=
  match minimistPlain rawArgv with
  | Some cliArgs => cliArgs
  | None => noFlags []
  end.

(** ** Predicates on events and configurations *)

(** The three prompts of [_generateSW] that fill a configuration field. *)
Definition isPrompt (e : event) : bool :=
  match e with
  | AskForRootOfWebApp | AskForExtensionsToCache _ | AskForServiceWorkerName =>
      true
  | _ => false
  end.


(** Events that touch the config store. *)
Definition isStore (e : event) : bool :=
  match e with
  | GetConfigFile | SaveConfigFile _ => true
  | _ => false
  end.

Definition isSave (e : event) : bool :=
  match e with
  | SaveConfigFile _ => true
  | _ => false
  end.

(** [config.globIgnores] is an array that has [config.dest] among its
    elements. *)
Definition ignoresDest (config : Config) : bool :=
  match dest config, globIgnores config with
  | JStr d, JArr ignores => existsb (fun item => strictEqStr item d) ignores
  | _, _ => false
  end.

(** The configuration right after step 1 of [_generateSW]. *)
Definition loaded (savedConfig : option Config) : Config :=
  match savedConfig with
  | Some c => set_wasSaved true c
  | None => emptyConfig
  end.

(** A single directory name: not empty, no separator, not [.] or [..]. *)
Fixpoint noSlash (s : string) : bool :=
  match s with
  | EmptyString => true
  | String c rest => negb (Ascii.eqb c Path.slash) && noSlash rest
  end.

Definition simpleName (s : string) : bool :=
  noSlash s && Path.nonempty s
  && negb (String.eqb s ".") && negb (String.eqb s "..").

Definition goodSegment (s : string) : bool := noSlash s && Path.nonempty s.

(** The promise [argv] waits on: the command handler when there is a
    positional token, the flag handler otherwise. *)
Definition handlerPromise (helpText pkgVersion : string)
           (generateGlobPattern : jsval -> list string -> string)
           (cwd : string) (io : Collaborators) (cliArgs : CliArgs)
  : Run unit :=
  match positional cliArgs with
  | command :: args =>
      handleCommand generateGlobPattern cwd io command args
                    (afterSplice cliArgs command)
  | [] => handleFlag helpText pkgVersion cliArgs
  end.

(** A flag is set when the parsed arguments hold a truthy value for its
    short or its long name. *)
Definition helpFlag (flags : CliArgs) : bool :=
  truthy (flag_h flags) || truthy (flag_help flags).

Definition versionFlag (flags : CliArgs) : bool :=
  truthy (flag_v flags) || truthy (flag_version flags).

(** The part of [_generateSW] after the configuration is assembled. *)
Definition finish (io : Collaborators) (config : Config) : Run unit :=
  saveConfig <- askWhetherToSave io config ;;
  _ <- saveIfAsked io config saveConfig ;;
  call (GenerateSW config) (generateSW io config).

(** The calls into the build library. *)
Definition isDelegate (e : event) : bool :=
  match e with
  | GenerateSW _ | GenerateFileManifest _ => true
  | _ => false
  end.

(** [config.rootDirectory] once step 2 of [_generateSW] is over, when the
    root prompt is answered [rDirectory]. *)
Definition rootAfter (cwd : string) (c : Config) (rDirectory : string)
  : jsval :=
  if truthy (rootDirectory c) then rootDirectory c
  else JStr (prettyRoot cwd rDirectory).

(** The prompts [_generateSW] is expected to show for a loaded
    configuration [c]: one per falsy field, in the order of the steps. *)
Definition expectedPrompts (cwd : string) (c : Config) (rDirectory : string)
  : list event :=
  ((if truthy (rootDirectory c) then [] else [AskForRootOfWebApp])
   ++ (if truthy (globPatterns c) then []
       else [AskForExtensionsToCache (rootAfter cwd c rDirectory)])
   ++ (if truthy (dest c) then [] else [AskForServiceWorkerName]))%list.

(** [process.exit] and the update notice, the two effects of [argv]
    itself. *)
Definition isProcessEvent (e : event) : bool :=
  match e with
  | UpdateNotify | Exit _ => true
  | _ => false
  end.

(** Calls to the prompts, the config store and the build library. *)
Definition isCollaboratorCall (e : event) : bool :=
  match e with
  | GetConfigFile | AskForRootOfWebApp | AskForExtensionsToCache _
  | AskForServiceWorkerName | AskSaveConfigFile | AskManifestFileName
  | SaveConfigFile _ | GenerateSW _ | GenerateFileManifest _ => true
  | _ => false
  end.

(** The three fields the prompts of [_generateSW] test are all truthy. *)
Definition complete (c : Config) : bool :=
  truthy (rootDirectory c) && truthy (globPatterns c) && truthy (dest c).

(** The values [path.join] accepts as a segment. *)
Definition isString (v : jsval) : bool :=
  match v with
  | JStr _ => true
  | _ => false
  end.

(** * Properties *)

(** ** Concrete runs *)

Example path_join_dot_empty : Path.join ["."; ""; Path.sep] = "./".
Proof. reflexivity. Qed.

Example path_join_dot_build : Path.join ["."; "build"; Path.sep] = "build/".
Proof. reflexivity. Qed.

Example path_relative_build :
  Path.relative "/home/dev/app" "/home/dev/app" "build" = "build".
Proof. reflexivity. Qed.

Example path_relative_abs :
  Path.relative "/home/dev/app" "/home/dev/app" "/home/dev/site/x" = "../site/x".
Proof. reflexivity. Qed.

Example path_relative_same :
  Path.relative "/home/dev/app" "/home/dev/app" "" = "".
Proof. reflexivity. Qed.

Example path_join_file : Path.join ["build/"; "sw.js"] = "build/sw.js".
Proof. reflexivity. Qed.

Example path_join_dotfile : Path.join ["./"; "sw.js"] = "sw.js".
Proof. reflexivity. Qed.

Example parse_command_then_flag :
  plainParser ["generate:sw"; "--help"] =
  mkCliArgs [JStr "generate:sw"] JUndefined (JBool true) JUndefined JUndefined.
Proof. reflexivity. Qed.

Example fresh_run :
  _generateSW sampleGlob sampleCwd freshRun =
  ([GetConfigFile; AskForRootOfWebApp; AskForExtensionsToCache (JStr "build/");
    AskForServiceWorkerName; AskSaveConfigFile;
    GenerateSW (mkConfig (JStr "build/") (jstrings ["build/**/*.{js,css}"])
                         (jstrings ["build/sw.js"]) (JStr "build/sw.js") JUndefined)],
   Resolved tt).
Proof. reflexivity. Qed.

Example saved_run :
  _generateSW sampleGlob sampleCwd savedRun =
  ([GetConfigFile; GenerateSW (set_wasSaved true completeConfig)], Resolved tt).
Proof. reflexivity. Qed.

Example numeric_command :
  handleCommand sampleGlob sampleCwd freshRun (JNum false "42") []
                (noFlags [JNum false "42"]) =
  ([LogError "Invlaid command given '42'"], Rejected).
Proof. reflexivity. Qed.

Example numeric_root_run :
  _generateSW sampleGlob sampleCwd numericRootRun =
  ([GetConfigFile; AskForServiceWorkerName], Rejected).
Proof. reflexivity. Qed.

Example stale_ignores_run :
  _generateSW sampleGlob sampleCwd staleIgnoresRun =
  ([GetConfigFile; AskForServiceWorkerName;
    GenerateSW (mkConfig (JStr "build/") (jstrings ["build/**/*.js"])
                         (jstrings ["build/sw.js"]) (JStr "build/sw.js")
                         (JBool true))],
   Resolved tt).
Proof. reflexivity. Qed.

Example help_then_command :
  argv "usage" "1.0.0" sampleGlob sampleCwd plainParser savedRun
       ["--help"; "generate:sw"] =
  ([UpdateNotify; Log "usage"; Exit 0], 0%Z).
Proof. reflexivity. Qed.

Example falsy_help_value :
  handleFlag "usage" "1.0.0"
             (mkCliArgs [] (JNum true "0") JUndefined JUndefined JUndefined) =
  ([Log "usage"], Rejected).
Proof. reflexivity. Qed.


(** ** Facts about the path functions *)
Module PathFacts.
Import Path.

Lemma split_not_nil (s : string) : split s <> [].
Proof.
  destruct s as [|c rest]; simpl; [discriminate|].
  destruct (Ascii.eqb c slash); [discriminate|].
  destruct (split rest); discriminate.
Qed.

(** Splitting distributes over a separator. *)
Lemma split_app (a b : string) :
  split (a ++ String slash b) = (split a ++ split b)%list.
Proof.
  induction a as [|c a IH]; simpl.
  - reflexivity.
  - destruct (Ascii.eqb c slash).
    + now rewrite IH.
    + rewrite IH. destruct (split a) as [|h t] eqn:E.
      * now apply split_not_nil in E.
      * reflexivity.
Qed.

Lemma split_noSlash (s : string) : noSlash s = true -> split s = [s].
Proof.
  induction s as [|c s IH]; simpl; [reflexivity|].
  intros H. apply andb_true_iff in H as [Hc Hs].
  apply negb_true_iff in Hc. rewrite Hc, (IH Hs). reflexivity.
Qed.

(** Joining slash-free segments and splitting again is the identity. *)
Lemma split_unsplit (parts : list string) :
  parts <> [] -> Forall (fun s => noSlash s = true) parts ->
  split (unsplit parts) = parts.
Proof.
  induction parts as [|x rest IH]; [congruence|].
  intros _ Hall. inversion Hall as [|? ? Hx Hrest]; subst.
  destruct rest as [|y ys].
  - simpl. now apply split_noSlash.
  - change (unsplit (x :: y :: ys)) with (x ++ String slash (unsplit (y :: ys))).
    rewrite split_app, (split_noSlash x Hx), IH; [reflexivity|discriminate|assumption].
Qed.

Lemma trimStart_good (l : list string) :
  Forall (fun s => goodSegment s = true) l -> trimStart l = l.
Proof.
  destruct l as [|h t]; [reflexivity|].
  intros H. inversion H as [|? ? Hh _]; subst. simpl.
  apply andb_true_iff in Hh as [_ Hne]. now rewrite Hne.
Qed.

Lemma trim_good (l : list string) :
  Forall (fun s => goodSegment s = true) l -> trim l = l.
Proof.
  intros H. unfold trim. rewrite (trimStart_good l H).
  rewrite trimStart_good; [apply rev_involutive|now apply Forall_rev].
Qed.

(** The segments of a resolved path, recovered from its text. *)
Lemma parts_of_body (res : list string) :
  Forall (fun s => goodSegment s = true) res ->
  trim (split (unsplit res)) = res.
Proof.
  intros H. destruct res as [|x rest] eqn:E; [reflexivity|]. rewrite <- E in *.
  rewrite split_unsplit.
  - now apply trim_good.
  - rewrite E; discriminate.
  - eapply Forall_impl; [|exact H]. intros s Hs.
    now apply andb_true_iff in Hs as [Hs _].
Qed.

Lemma removelast_Forall {A : Type} (P : A -> Prop) (l : list A) :
  Forall P l -> Forall P (removelast l).
Proof.
  induction l as [|a l IH]; intros H; [constructor|].
  inversion H; subst. simpl. destruct l; [constructor|].
  constructor; auto.
Qed.

Lemma normalizeStep_good (res : list string) (p : string) :
  noSlash p = true ->
  Forall (fun s => goodSegment s = true) res ->
  Forall (fun s => goodSegment s = true) (normalizeStep false res p).
Proof.
  intros Hp Hres. unfold normalizeStep.
  destruct (String.eqb p "") eqn:E1; [assumption|].
  destruct (String.eqb p ".") eqn:E2; [assumption|]. simpl.
  destruct (String.eqb p "..") eqn:E3.
  - destruct res as [|r rs]; [constructor|].
    destruct (last_is_dotdot (r :: rs)); [assumption|].
    now apply removelast_Forall.
  - apply Forall_app. split; [assumption|].
    constructor; [|constructor]. unfold goodSegment, nonempty.
    now rewrite Hp, E1.
Qed.

Lemma fold_normalize_good (parts res : list string) :
  Forall (fun s => noSlash s = true) parts ->
  Forall (fun s => goodSegment s = true) res ->
  Forall (fun s => goodSegment s = true)
         (fold_left (normalizeStep false) parts res).
Proof.
  revert res. induction parts as [|p parts IH]; intros res Hp Hres; [assumption|].
  inversion Hp; subst. simpl. apply IH; [assumption|].
  now apply normalizeStep_good.
Qed.

Lemma split_parts_noSlash (s : string) :
  Forall (fun p => noSlash p = true) (split s).
Proof.
  induction s as [|c s IH]; simpl; [repeat constructor|].
  destruct (Ascii.eqb c slash) eqn:E.
  - constructor; [reflexivity|assumption].
  - destruct (split s) as [|h t]; [repeat constructor; simpl; now rewrite E|].
    inversion IH; subst. constructor; [|assumption].
    simpl. now rewrite E.
Qed.

Lemma dropCommon_prefix (common rest : list string) :
  dropCommon common (common ++ rest) = ([], rest).
Proof.
  induction common as [|x xs IH]; simpl; [now destruct rest|].
  now rewrite String.eqb_refl.
Qed.

Lemma isAbsolute_nonempty (p : string) :
  isAbsolute p = true -> nonempty p = true.
Proof. destruct p; [discriminate|reflexivity]. Qed.

Lemma simpleName_parts (d : string) :
  simpleName d = true ->
  noSlash d = true /\ nonempty d = true
  /\ String.eqb d "." = false /\ String.eqb d ".." = false.
Proof.
  unfold simpleName. intros H.
  apply andb_true_iff in H as [H H2]. apply andb_true_iff in H as [H H1].
  apply andb_true_iff in H as [Hns Hne].
  apply negb_true_iff in H1, H2. auto.
Qed.

Lemma simpleName_step (above : bool) (res : list string) (d : string) :
  simpleName d = true -> normalizeStep above res d = (res ++ [d])%list.
Proof.
  intros H. destruct (simpleName_parts d H) as (_ & Hne & H1 & H2).
  unfold nonempty in Hne. apply negb_true_iff in Hne.
  unfold normalizeStep. now rewrite Hne, H1, H2.
Qed.

(** From an absolute working directory, a directory name given relative
    to it is its own relative path. *)
Lemma relative_simple_name (cwd d : string) :
  isAbsolute cwd = true -> simpleName d = true ->
  relative cwd cwd d = d.
Proof.
  intros Habs Hd.
  destruct (simpleName_parts d Hd) as (Hns & Hne & _ & _).
  assert (Hrel : isAbsolute d = false).
  { destruct d as [|c d]; [reflexivity|]. simpl in Hns |- *.
    apply andb_true_iff in Hns as [Hc _]. now apply negb_true_iff in Hc. }
  unfold relative, resolve.
  rewrite (isAbsolute_nonempty cwd Habs), Habs, Hne, Hrel. simpl negb.
  change (cwd ++ "/") with (cwd ++ String slash "").
  change (cwd ++ "/" ++ d ++ "/") with (cwd ++ String slash (d ++ String slash "")).
  rewrite !split_app. simpl (split "").
  unfold normalizeArray. rewrite !fold_left_app. simpl fold_left.
  set (res := fold_left (normalizeStep false) (split cwd) []).
  assert (Hres : Forall (fun s => goodSegment s = true) res).
  { apply fold_normalize_good; [apply split_parts_noSlash|constructor]. }
  rewrite (split_noSlash d Hns). simpl fold_left.
  rewrite (simpleName_step false res d Hd).
  assert (Hres' : Forall (fun s => goodSegment s = true) (res ++ [d])%list).
  { apply Forall_app. split; [assumption|]. constructor; [|constructor].
    unfold goodSegment. now rewrite Hns, Hne. }
  assert (Hstep : normalizeStep false res "" = res) by reflexivity.
  assert (Hstep' : normalizeStep false (res ++ [d]) "" = (res ++ [d])%list)
    by reflexivity.
  rewrite Hstep, Hstep'.
  assert (Hout : forall body, nonempty ("/" ++ body) = true) by reflexivity.
  rewrite !Hout. simpl substr1.
  rewrite (parts_of_body res Hres), (parts_of_body _ Hres').
  rewrite dropCommon_prefix. reflexivity.
Qed.

(** The working directory is at distance zero from itself: an empty
    answer resolves to it. *)
Lemma relative_empty (cwd : string) :
  isAbsolute cwd = true -> relative cwd cwd "" = "".
Proof.
  intros Habs. unfold relative, resolve.
  rewrite (isAbsolute_nonempty cwd Habs), Habs. simpl nonempty. cbv iota.
  change (cwd ++ "/" ++ "") with (cwd ++ "/").
  set (parts := trim _).
  replace (dropCommon parts parts) with (@nil string, @nil string).
  - reflexivity.
  - symmetry. rewrite <- (app_nil_r parts) at 2. apply dropCommon_prefix.
Qed.

Lemma trailingSlash_app (a b : string) :
  b <> "" -> trailingSlash (a ++ b) = trailingSlash b.
Proof.
  intros Hb. induction a as [|c a IH]; [reflexivity|].
  simpl. destruct (a ++ b) eqn:E; [|exact IH].
  destruct a; simpl in E; congruence.
Qed.

(** [path.join('.', d, path.sep)] drops the leading [./]. *)
Lemma join_dot_simple_name (d : string) :
  simpleName d = true -> join ["."; d; sep] = d ++ "/".
Proof.
  intros Hd.
  destruct (simpleName_parts d Hd) as (Hns & Hne & _ & _).
  set (p := "." ++ String slash (d ++ String slash ("" ++ String slash ""))).
  assert (Hglue : fold_left glue ["."; d; sep] "" = p).
  { simpl fold_left. unfold glue at 2. rewrite Hne. reflexivity. }
  assert (Habs : isAbsolute p = false) by reflexivity.
  assert (Htr : trailingSlash p = true).
  { change p with ("./" ++ (d ++ "//")).
    rewrite (trailingSlash_app "./" (d ++ "//")) by (destruct d; discriminate).
    now rewrite (trailingSlash_app d "//") by discriminate. }
  assert (Hparts : normalizeArray (split p) true = [d]).
  { unfold p. rewrite !split_app, (split_noSlash d Hns).
    unfold normalizeArray. simpl.
    change (normalizeStep true [] ".") with (@nil string).
    now rewrite (simpleName_step true [] d Hd). }
  unfold join. rewrite Hglue. unfold normalize.
  rewrite Habs, Htr. change (negb false) with true.
  rewrite Hparts. change (unsplit [d]) with d.
  rewrite Hne. cbn [negb andb]. rewrite Hne. reflexivity.
Qed.

End PathFacts.

(** ** Generic facts about runs *)

Lemma trace_andThen {A B : Type} (p : Run A) (k : A -> Run B) :
  trace (andThen p k) =
  (trace p ++ match settled p with
              | Resolved a => trace (k a)
              | Rejected => []
              end)%list.
Proof.
  destruct p as [t [a|]]; simpl.
  - destruct (k a); reflexivity.
  - now rewrite app_nil_r.
Qed.

Lemma settled_andThen {A B : Type} (p : Run A) (k : A -> Run B) :
  settled (andThen p k) =
  match settled p with
  | Resolved a => settled (k a)
  | Rejected => Rejected
  end.
Proof.
  destruct p as [t [a|]]; simpl; [destruct (k a)|]; reflexivity.
Qed.

(** A property of events holds along a chain when it holds along each of
    its links. *)
Lemma Forall_andThen {A B : Type} (P : event -> Prop)
      (p : Run A) (k : A -> Run B) :
  Forall P (trace p) -> (forall a, Forall P (trace (k a))) ->
  Forall P (trace (andThen p k)).
Proof.
  intros Hp Hk. rewrite trace_andThen. apply Forall_app. split; [assumption|].
  destruct (settled p); [apply Hk|constructor].
Qed.

Lemma Forall_call {A : Type} (P : event -> Prop) (e : event) (p : outcome A) :
  P e -> Forall P (trace (call e p)).
Proof. intros H. repeat constructor. exact H. Qed.

Lemma isResolved_inv {A : Type} (o : outcome A) :
  isResolved o = true -> exists a, o = Resolved a.
Proof. destruct o; [eauto|discriminate]. Qed.

Lemma truthy_js_or (a b : jsval) :
  truthy (js_or a b) = truthy a || truthy b.
Proof. unfold js_or. destruct (truthy a) eqn:E; [now rewrite E|reflexivity]. Qed.

Lemma strictEqStr_neq (v : jsval) (lit : string) :
  v <> JStr lit -> strictEqStr v lit = false.
Proof.
  destruct v; try reflexivity. intros H. simpl.
  apply String.eqb_neq. congruence.
Qed.

(** ** The dispatcher *)
Section Dispatcher.

Variable helpText : string.
Variable pkgVersion : string.
Variable generateGlobPattern : jsval -> list string -> string.
Variable cwd : string.
Variable minimist : list string -> CliArgs.
Variable io : Collaborators.

Local Abbreviation argv' :=
  (argv helpText pkgVersion generateGlobPattern cwd minimist io).
Local Abbreviation handleFlag' := (handleFlag helpText pkgVersion).
Local Abbreviation handleCommand' := (handleCommand generateGlobPattern cwd io).
Local Abbreviation handler' :=
  (handlerPromise helpText pkgVersion generateGlobPattern cwd io).

Lemma argv_unfold (rawArgv : list string) :
  argv' rawArgv =
  let handler := handler' (minimist rawArgv) in
  let code := if isResolved (settled handler) then 0%Z else 1%Z in
  (UpdateNotify :: trace handler ++ [Exit code], code)%list.
Proof.
  unfold argv, handlerPromise, exitWith.
  destruct (positional (minimist rawArgv)); reflexivity.
Qed.

(** C1: [argv] ends the process with status 0 when the handler promise
    (command handler when a positional token is present, flag handler
    otherwise) resolves and with status 1 when it rejects; it calls
    [process.exit] once, after everything the handler did, and no other
    status occurs. *)
Theorem argv_exit_status (rawArgv : list string) :
  (settled (handler' (minimist rawArgv)) = Resolved tt ->
   argv' rawArgv =
   (UpdateNotify :: trace (handler' (minimist rawArgv)) ++ [Exit 0], 0%Z)%list)
  /\ (settled (handler' (minimist rawArgv)) = Rejected ->
      argv' rawArgv =
      (UpdateNotify :: trace (handler' (minimist rawArgv)) ++ [Exit 1],
       1%Z)%list)
  /\ (snd (argv' rawArgv) = 0%Z \/ snd (argv' rawArgv) = 1%Z).
Proof.
  rewrite argv_unfold. cbv zeta. split; [|split].
  - intros H. now rewrite H.
  - intros H. now rewrite H.
  - simpl. destruct (isResolved _); auto.
Qed.

(** C2: a command other than ['generate:sw'] and ['generate:manifest']
    makes [handleCommand] log the invalid-command error and return a
    rejected promise, and the process exits with status 1. *)
Theorem handleCommand_invalid (command : jsval) (args : list jsval)
        (flags : CliArgs) (rawArgv : list string) :
  command <> JStr "generate:sw" ->
  command <> JStr "generate:manifest" ->
  handleCommand' command args flags =
  ([LogError ("Invlaid command given '" ++ toString command ++ "'")], Rejected)
  /\ (positional (minimist rawArgv) = command :: args ->
      argv' rawArgv =
      ([UpdateNotify;
        LogError ("Invlaid command given '" ++ toString command ++ "'");
        Exit 1], 1%Z)).
Proof.
  intros Hsw Hmanifest.
  assert (Hc : forall f, handleCommand' command args f =
    ([LogError ("Invlaid command given '" ++ toString command ++ "'")],
     Rejected)).
  { intros f. unfold handleCommand.
    now rewrite (strictEqStr_neq _ _ Hsw), (strictEqStr_neq _ _ Hmanifest). }
  split; [apply Hc|].
  intros Hpos. rewrite argv_unfold. unfold handlerPromise.
  rewrite Hpos, Hc. reflexivity.
Qed.

Lemma handleFlag_cases (flags : CliArgs) :
  handleFlag' flags =
  match helpFlag flags, versionFlag flags with
  | true, true => ([Log helpText; Log pkgVersion], Resolved tt)
  | true, false => ([Log helpText], Resolved tt)
  | false, true => ([Log pkgVersion], Resolved tt)
  | false, false => ([Log helpText], Rejected)
  end.
Proof.
  unfold handleFlag, helpFlag, versionFlag. rewrite !truthy_js_or.
  destruct (truthy (flag_h flags) || truthy (flag_help flags));
    destruct (truthy (flag_v flags) || truthy (flag_version flags));
    reflexivity.
Qed.

(** C3: with no positional token [handleFlag] decides.  When the help
    flag is set the help text is printed and the promise resolves; when
    the version flag is set the package version is printed and the
    promise resolves; when neither is set the help text is printed and
    the promise rejects. *)
Theorem handleFlag_spec (flags : CliArgs) :
  (helpFlag flags = true ->
   In (Log helpText) (trace (handleFlag' flags))
   /\ settled (handleFlag' flags) = Resolved tt)
  /\ (versionFlag flags = true ->
      In (Log pkgVersion) (trace (handleFlag' flags))
      /\ settled (handleFlag' flags) = Resolved tt)
  /\ (helpFlag flags = false -> versionFlag flags = false ->
      handleFlag' flags = ([Log helpText], Rejected))
  /\ (positional flags = [] -> handler' flags = handleFlag' flags).
Proof.
  rewrite handleFlag_cases. repeat split.
  - destruct (versionFlag flags); rewrite H; simpl; auto.
  - rewrite H. now destruct (versionFlag flags).
  - destruct (helpFlag flags); rewrite H; simpl; auto.
  - rewrite H. now destruct (helpFlag flags).
  - intros Hh Hv. now rewrite Hh, Hv.
  - intros Hpos. unfold handlerPromise. rewrite Hpos. apply handleFlag_cases.
Qed.

(** C10: with no positional token and both the help and the version flag
    set, the help text is printed, then the version, and the process
    exits with status 0. *)
Theorem handleFlag_help_and_version (rawArgv : list string) :
  positional (minimist rawArgv) = [] ->
  helpFlag (minimist rawArgv) = true ->
  versionFlag (minimist rawArgv) = true ->
  handleFlag' (minimist rawArgv) =
  ([Log helpText; Log pkgVersion], Resolved tt)
  /\ argv' rawArgv =
     ([UpdateNotify; Log helpText; Log pkgVersion; Exit 0], 0%Z).
Proof.
  intros Hpos Hh Hv.
  assert (H : handleFlag' (minimist rawArgv) =
              ([Log helpText; Log pkgVersion], Resolved tt))
    by now rewrite handleFlag_cases, Hh, Hv.
  split; [exact H|].
  rewrite argv_unfold. unfold handlerPromise. rewrite Hpos, H. reflexivity.
Qed.

End Dispatcher.

(** ** The two workflows *)

(** Splits a goal about the events of a chain into goals about its links. *)
Ltac links :=
  repeat match goal with
         | |- Forall _ (trace (andThen _ _)) =>
             apply Forall_andThen; [|intros ?]
         | |- Forall _ (trace (if ?b then _ else _)) => destruct b
         | |- Forall _ (trace (match ?x with _ => _ end)) => destruct x
         | |- Forall _ (trace (call _ _)) => apply Forall_call; reflexivity
         | |- Forall _ (trace (ret _)) => constructor
         | |- Forall _ (trace reject) => constructor
         | |- Forall _ [] => constructor
         | |- Forall _ (_ :: _) => constructor; [reflexivity|]
         end.

Section Workflows.

Variable generateGlobPattern : jsval -> list string -> string.
Variable cwd : string.
Variable io : Collaborators.

Local Abbreviation generateSW' := (_generateSW generateGlobPattern cwd io).
Local Abbreviation assemble' := (assembleConfig generateGlobPattern cwd io).
Local Abbreviation manifest' := (_generateBuildManifest generateGlobPattern io).
Local Abbreviation ensureRoot' := (ensureRootDirectory cwd io).
Local Abbreviation ensureGlob' := (ensureGlobPatterns generateGlobPattern io).
Local Abbreviation ensureDest' := (ensureDest io).

Lemma generateSW_split : generateSW' = andThen assemble' (finish io).
Proof. reflexivity. Qed.

Lemma assemble_unfold :
  assemble' =
  (savedConfig <- call GetConfigFile (getConfigFile io) ;;
   config <- ensureRoot' (loaded savedConfig) ;;
   config <- ensureGlob' config ;;
   ensureDest' config).
Proof.
  unfold assembleConfig, loadSavedConfig, call.
  destruct (getConfigFile io) as [[c|]|]; simpl; try reflexivity.
Qed.


Lemma assemble_no_save : Forall (fun e => isSave e = false) (trace assemble').
Proof.
  unfold assembleConfig, loadSavedConfig, ensureRootDirectory,
    ensureGlobPatterns, ensureDest.
  links.
Qed.

Lemma finish_no_prompt (config : Config) :
  Forall (fun e => isPrompt e = false) (trace (finish io config)).
Proof. unfold finish, askWhetherToSave, saveIfAsked. links. Qed.

Lemma manifest_no_store : Forall (fun e => isStore e = false) (trace manifest').
Proof. unfold _generateBuildManifest. links. Qed.

(** What each step leaves untouched. *)
Lemma ensureRoot_keeps (c c' : Config) :
  settled (ensureRoot' c) = Resolved c' ->
  globPatterns c' = globPatterns c /\ globIgnores c' = globIgnores c
  /\ dest c' = dest c /\ wasSaved c' = wasSaved c.
Proof.
  unfold ensureRootDirectory.
  destruct (truthy (rootDirectory c)); simpl.
  - intros [= <-]. auto.
  - destruct (askForRootOfWebApp io); simpl; [|discriminate].
    intros [= <-]. auto.
Qed.

Lemma ensureGlob_keeps (c c' : Config) :
  settled (ensureGlob' c) = Resolved c' ->
  rootDirectory c' = rootDirectory c /\ globIgnores c' = globIgnores c
  /\ dest c' = dest c /\ wasSaved c' = wasSaved c.
Proof.
  unfold ensureGlobPatterns.
  destruct (truthy (globPatterns c)); simpl.
  - intros [= <-]. auto.
  - destruct (askForExtensionsToCache io _); simpl; [|discriminate].
    intros [= <-]. auto.
Qed.

Lemma ensureDest_keeps (c c' : Config) :
  settled (ensureDest' c) = Resolved c' ->
  wasSaved c' = wasSaved c
  /\ (truthy (dest c) = true -> c' = c)
  /\ (truthy (dest c) = false -> ignoresDest c' = true).
Proof.
  unfold ensureDest.
  destruct (truthy (dest c)); simpl.
  - intros [= <-]. repeat split; congruence.
  - destruct (askForServiceWorkerName io); simpl; [|discriminate].
    destruct (rootDirectory c); simpl; try discriminate.
    intros [= <-]. repeat split; try congruence.
    intros _. unfold ignoresDest. simpl. now rewrite String.eqb_refl.
Qed.

(** The configuration [_generateSW] ends up with, against the one it
    loaded. *)
Lemma assemble_resolved (config : Config) :
  settled assemble' = Resolved config ->
  exists savedConfig,
    getConfigFile io = Resolved savedConfig
    /\ wasSaved config = wasSaved (loaded savedConfig)
    /\ (truthy (dest (loaded savedConfig)) = true ->
        dest config = dest (loaded savedConfig)
        /\ globIgnores config = globIgnores (loaded savedConfig))
    /\ (truthy (dest (loaded savedConfig)) = false ->
        ignoresDest config = true).
Proof.
  rewrite assemble_unfold, settled_andThen.
  change (settled (call GetConfigFile (getConfigFile io)))
    with (getConfigFile io).
  destruct (getConfigFile io) as [savedConfig|]; [|discriminate].
  rewrite settled_andThen.
  destruct (settled (ensureRoot' (loaded savedConfig))) as [c1|] eqn:E1;
    [|discriminate].
  rewrite settled_andThen.
  destruct (settled (ensureGlob' c1)) as [c2|] eqn:E2; [|discriminate].
  intros E3. exists savedConfig.
  destruct (ensureRoot_keeps _ _ E1) as (_ & Hi1 & Hd1 & Hw1).
  destruct (ensureGlob_keeps _ _ E2) as (_ & Hi2 & Hd2 & Hw2).
  destruct (ensureDest_keeps _ _ E3) as (Hw3 & Hsame & Hfresh).
  assert (Hd : dest c2 = dest (loaded savedConfig)) by congruence.
  split; [reflexivity|]. split; [congruence|]. split.
  - intros Ht. rewrite <- Hd in Ht. rewrite (Hsame Ht). split; congruence.
  - intros Ht. rewrite <- Hd in Ht. auto.
Qed.

Lemma not_in_of_Forall_false (f : event -> bool) (t : list event) (e : event) :
  Forall (fun x => f x = false) t -> f e = true -> ~ In e t.
Proof.
  intros Hall He Hin. rewrite Forall_forall in Hall.
  specialize (Hall e Hin). congruence.
Qed.

(** Where [saveConfigFile] can be called: only by [finish]. *)
Lemma save_in_finish (config c : Config) :
  In (SaveConfigFile c) (trace (finish io config)) <->
  c = config /\ truthy (wasSaved config) = false
  /\ askSaveConfigFile io = Resolved true.
Proof.
  unfold finish, askWhetherToSave, saveIfAsked.
  destruct (truthy (wasSaved config));
    destruct (askSaveConfigFile io) as [[|]|];
    destruct (saveConfigFile io config);
    destruct (generateSW io config); simpl;
    intuition (try discriminate; try congruence).
Qed.

(** C6: [_generateSW] calls [saveConfigFile] exactly when no saved
    configuration was loaded ([wasSaved] is not set), every step before
    the save question resolved, and the user answered yes; the
    configuration saved is the assembled one.  [wasSaved] is set exactly
    when a saved configuration was loaded, and a rejection before the
    save question rules a save out. *)
Theorem generateSW_save_iff (config : Config) :
  (In (SaveConfigFile config) (trace generateSW') <->
   getConfigFile io = Resolved None
   /\ settled assemble' = Resolved config
   /\ askSaveConfigFile io = Resolved true)
  /\ (settled assemble' = Resolved config ->
      (wasSaved config = JBool true <->
       exists c, getConfigFile io = Resolved (Some c)))
  /\ (settled assemble' = Rejected ->
      forall c, ~ In (SaveConfigFile c) (trace generateSW')).
Proof.
  assert (Hsplit : forall c,
    In (SaveConfigFile c) (trace generateSW') <->
    exists c0, settled assemble' = Resolved c0
               /\ In (SaveConfigFile c) (trace (finish io c0))).
  { intros c. rewrite generateSW_split, trace_andThen, in_app_iff. split.
    - intros [H|H].
      + now apply (not_in_of_Forall_false isSave _ _ assemble_no_save) in H.
      + destruct (settled assemble') as [c0|]; [eauto|destruct H].
    - intros (c0 & E & H). rewrite E. now right. }
  split; [split|split; [intros E; split|]].
  - intros H. apply Hsplit in H as (c0 & E & H).
    apply save_in_finish in H as (-> & Hw & Hyes).
    destruct (assemble_resolved _ E) as (saved & Hget & Hsaved & _).
    rewrite Hsaved in Hw. destruct saved; [discriminate|auto].
  - intros (Hget & E & Hyes). apply Hsplit. exists config. split; [exact E|].
    apply save_in_finish. split; [reflexivity|]. split; [|exact Hyes].
    destruct (assemble_resolved _ E) as (saved & Hget' & Hsaved & _).
    rewrite Hsaved. replace saved with (@None Config) by congruence.
    reflexivity.
  - intros Hw. destruct (assemble_resolved _ E) as (saved & Hget & Hsaved & _).
    rewrite Hsaved in Hw. destruct saved as [c|]; [eauto|discriminate].
  - intros (c & Hget).
    destruct (assemble_resolved _ E) as (saved & Hget' & Hsaved & _).
    rewrite Hsaved. replace saved with (Some c) by congruence. reflexivity.
  - intros E c Hin. apply Hsplit in Hin as (c0 & E' & _). congruence.
Qed.

Lemma assemble_no_delegate :
  Forall (fun e => isDelegate e = false) (trace assemble').
Proof.
  unfold assembleConfig, loadSavedConfig, ensureRootDirectory,
    ensureGlobPatterns, ensureDest.
  links.
Qed.

Lemma delegate_in_finish (config c : Config) :
  In (GenerateSW c) (trace (finish io config)) -> c = config.
Proof.
  unfold finish, askWhetherToSave, saveIfAsked.
  destruct (truthy (wasSaved config));
    destruct (askSaveConfigFile io) as [[|]|];
    destruct (saveConfigFile io config);
    destruct (generateSW io config); simpl;
    intuition (try discriminate; try congruence).
Qed.

(** The service-worker delegate is handed the assembled configuration. *)
Lemma delegate_in_generateSW (config : Config) :
  In (GenerateSW config) (trace generateSW') ->
  settled assemble' = Resolved config.
Proof.
  rewrite generateSW_split, trace_andThen, in_app_iff. intros [H|H].
  - now apply (not_in_of_Forall_false isDelegate _ _ assemble_no_delegate) in H.
  - destruct (settled assemble') as [c0|]; [|destruct H].
    now rewrite (delegate_in_finish _ _ H).
Qed.

Lemma manifest_resolved (root : string) (exts : list string) (name : string) :
  askForRootOfWebApp io = Resolved root ->
  askForExtensionsToCache io (JStr root) = Resolved exts ->
  askManifestFileName io = Resolved name ->
  manifest' =
  ([AskForRootOfWebApp; AskForExtensionsToCache (JStr root);
    AskManifestFileName;
    GenerateFileManifest (manifestConfig generateGlobPattern root exts name)],
   generateFileManifest io (manifestConfig generateGlobPattern root exts name)).
Proof.
  intros Hroot Hexts Hname. unfold _generateBuildManifest, call.
  rewrite Hroot. simpl. rewrite Hexts. simpl. rewrite Hname. reflexivity.
Qed.

Lemma delegate_in_manifest (config : Config) :
  In (GenerateFileManifest config) (trace manifest') ->
  exists root exts name,
    config = manifestConfig generateGlobPattern root exts name.
Proof.
  unfold _generateBuildManifest, call.
  destruct (askForRootOfWebApp io) as [root|]; simpl;
    [|intuition discriminate].
  destruct (askForExtensionsToCache io (JStr root)) as [exts|]; simpl;
    [|intuition discriminate].
  destruct (askManifestFileName io) as [name|]; simpl;
    [|intuition discriminate].
  intros H. exists root, exts, name.
  intuition (try discriminate; congruence).
Qed.

(** C5, as amended: the manifest workflow always hands the build library
    a configuration whose [globIgnores] contains its [dest]; the
    service-worker workflow does so whenever the saved configuration it
    loaded, if it has a [dest], already lists that [dest] in its
    [globIgnores] (in particular whenever [dest] is prompted for); and a
    saved configuration that has a [dest] is passed on with its [dest]
    and its [globIgnores] as they were loaded. *)
Theorem delegate_config_ignores_dest (config : Config) :
  (In (GenerateFileManifest config) (trace manifest') ->
   ignoresDest config = true)
  /\ ((forall c, getConfigFile io = Resolved (Some c) ->
                 truthy (dest c) = true -> ignoresDest c = true) ->
      In (GenerateSW config) (trace generateSW') ->
      ignoresDest config = true)
  /\ (forall c,
         getConfigFile io = Resolved (Some c) ->
         truthy (dest c) = true ->
         In (GenerateSW config) (trace generateSW') ->
         dest config = dest c /\ globIgnores config = globIgnores c).
Proof.
  split; [|split].
  - intros H. apply delegate_in_manifest in H as (root & exts & name & ->).
    unfold ignoresDest. simpl. now rewrite String.eqb_refl.
  - intros Hsaved H. apply delegate_in_generateSW in H.
    destruct (assemble_resolved _ H) as (saved & Hget & _ & Hkept & Hfresh).
    destruct (truthy (dest (loaded saved))) eqn:Ht; [|auto].
    destruct (Hkept eq_refl) as [Hd Hi].
    unfold ignoresDest. rewrite Hd, Hi.
    destruct saved as [c|]; [|discriminate Ht].
    apply (Hsaved c Hget Ht).
  - intros c Hget Ht H. apply delegate_in_generateSW in H.
    destruct (assemble_resolved _ H) as (saved & Hget' & _ & Hkept & _).
    replace saved with (Some c) in Hkept by congruence.
    now apply Hkept.
Qed.

(** C8: the manifest workflow never touches the config store (neither a
    load nor a save), starts with the root prompt whatever the store
    holds, and, when its three prompts are answered, calls
    [generateFileManifest] once with the record
    [{rootDirectory, globPatterns: [pattern], globIgnores: [manifestPath],
    dest: manifestPath}], which has no [wasSaved]. *)
Theorem generateBuildManifest_spec :
  Forall (fun e => isStore e = false) (trace manifest')
  /\ (exists rest, trace manifest' = AskForRootOfWebApp :: rest)
  /\ (forall io2,
         askForRootOfWebApp io2 = askForRootOfWebApp io ->
         (forall r, askForExtensionsToCache io2 r = askForExtensionsToCache io r) ->
         askManifestFileName io2 = askManifestFileName io ->
         (forall c, generateFileManifest io2 c = generateFileManifest io c) ->
         _generateBuildManifest generateGlobPattern io2 = manifest')
  /\ (forall root exts name,
         askForRootOfWebApp io = Resolved root ->
         askForExtensionsToCache io (JStr root) = Resolved exts ->
         askManifestFileName io = Resolved name ->
         let manifestPath := Path.join [root; name] in
         let config :=
           mkConfig (JStr root)
                    (jstrings [generateGlobPattern (JStr root) exts])
                    (jstrings [manifestPath]) (JStr manifestPath) JUndefined in
         manifest' =
         ([AskForRootOfWebApp; AskForExtensionsToCache (JStr root);
           AskManifestFileName; GenerateFileManifest config],
          generateFileManifest io config)).
Proof.
  split; [apply manifest_no_store|]. split; [|split].
  - unfold _generateBuildManifest. rewrite trace_andThen. simpl. eauto.
  - intros io2 Hroot Hexts Hname Hgen. unfold _generateBuildManifest.
    rewrite Hroot, Hname.
    destruct (askForRootOfWebApp io) as [root|]; [|reflexivity].
    unfold call, andThen. rewrite Hexts.
    destruct (askForExtensionsToCache io (JStr root)); [|reflexivity].
    destruct (askManifestFileName io); [|reflexivity].
    now rewrite Hgen.
  - intros root exts name Hroot Hexts Hname. simpl.
    now apply manifest_resolved.
Qed.

Lemma filter_none (f : event -> bool) (t : list event) :
  Forall (fun e => f e = false) t -> filter f t = [].
Proof.
  induction 1 as [|e t He _ IH]; [reflexivity|]. simpl. now rewrite He.
Qed.

(** Only the assembling part of [_generateSW] shows field prompts. *)
Lemma prompts_of_generateSW :
  filter isPrompt (trace generateSW') = filter isPrompt (trace assemble').
Proof.
  rewrite generateSW_split, trace_andThen, filter_app.
  destruct (settled assemble') as [c|]; simpl.
  - now rewrite (filter_none _ _ (finish_no_prompt c)), app_nil_r.
  - now rewrite app_nil_r.
Qed.

(** The events of each step and of the assembling chain. *)
Lemma trace_ensureRoot (c : Config) :
  trace (ensureRoot' c) =
  if truthy (rootDirectory c) then [] else [AskForRootOfWebApp].
Proof.
  unfold ensureRootDirectory, call.
  destruct (truthy (rootDirectory c)); [reflexivity|].
  now destruct (askForRootOfWebApp io).
Qed.

Lemma trace_ensureGlob (c : Config) :
  trace (ensureGlob' c) =
  if truthy (globPatterns c) then []
  else [AskForExtensionsToCache (rootDirectory c)].
Proof.
  unfold ensureGlobPatterns, call.
  destruct (truthy (globPatterns c)); [reflexivity|].
  now destruct (askForExtensionsToCache io (rootDirectory c)).
Qed.

Lemma trace_ensureDest (c : Config) :
  trace (ensureDest' c) =
  if truthy (dest c) then [] else [AskForServiceWorkerName].
Proof.
  unfold ensureDest, call.
  destruct (truthy (dest c)); [reflexivity|].
  destruct (askForServiceWorkerName io); [|reflexivity].
  now destruct (rootDirectory c).
Qed.

Lemma trace_assemble (savedConfig : option Config) :
  getConfigFile io = Resolved savedConfig ->
  trace assemble' =
  (GetConfigFile
   :: trace (ensureRoot' (loaded savedConfig))
   ++ match settled (ensureRoot' (loaded savedConfig)) with
      | Resolved c1 =>
          trace (ensureGlob' c1)
          ++ match settled (ensureGlob' c1) with
             | Resolved c2 => trace (ensureDest' c2)
             | Rejected => []
             end
      | Rejected => []
      end)%list.
Proof.
  intros Hget. rewrite assemble_unfold, trace_andThen.
  change (settled (call GetConfigFile (getConfigFile io)))
    with (getConfigFile io).
  rewrite Hget, !trace_andThen. cbn [trace call fst app].
  destruct (settled (ensureRoot' (loaded savedConfig))); [|reflexivity].
  now rewrite trace_andThen.
Qed.

Lemma ensureRoot_resolved (c : Config) (rDirectory : string) :
  askForRootOfWebApp io = Resolved rDirectory ->
  settled (ensureRoot' c) =
  Resolved (if truthy (rootDirectory c) then c
            else set_rootDirectory (prettyRoot cwd rDirectory) c).
Proof.
  intros Hroot. unfold ensureRootDirectory, call. rewrite Hroot.
  now destruct (truthy (rootDirectory c)).
Qed.

Lemma ensureGlob_resolved (c : Config) :
  (forall root, isResolved (askForExtensionsToCache io root) = true) ->
  exists c', settled (ensureGlob' c) = Resolved c'.
Proof.
  intros Hexts. unfold ensureGlobPatterns, call.
  destruct (truthy (globPatterns c)); simpl; [eauto|].
  destruct (isResolved_inv _ (Hexts (rootDirectory c))) as [exts ->].
  simpl. eauto.
Qed.

(** With every prompt answered, the prompts shown are the expected ones. *)
Lemma assemble_prompts (savedConfig : option Config) (rDirectory : string) :
  getConfigFile io = Resolved savedConfig ->
  askForRootOfWebApp io = Resolved rDirectory ->
  (forall root, isResolved (askForExtensionsToCache io root) = true) ->
  isResolved (askForServiceWorkerName io) = true ->
  filter isPrompt (trace assemble') =
  expectedPrompts cwd (loaded savedConfig) rDirectory.
Proof.
  intros Hget Hroot Hexts Hname.
  rewrite (trace_assemble _ Hget), (ensureRoot_resolved _ _ Hroot).
  set (c0 := loaded savedConfig).
  set (c1 := if truthy (rootDirectory c0) then c0
             else set_rootDirectory (prettyRoot cwd rDirectory) c0).
  destruct (ensureGlob_resolved c1 Hexts) as [c2 E2]. rewrite E2.
  destruct (ensureGlob_keeps _ _ E2) as (_ & _ & Hd2 & _).
  rewrite trace_ensureRoot, trace_ensureGlob, trace_ensureDest, Hd2.
  assert (Hr1 : rootDirectory c1 = rootAfter cwd c0 rDirectory).
  { unfold c1, rootAfter. now destruct (truthy (rootDirectory c0)). }
  assert (Hg1 : globPatterns c1 = globPatterns c0).
  { unfold c1. now destruct (truthy (rootDirectory c0)). }
  assert (Hd1 : dest c1 = dest c0).
  { unfold c1. now destruct (truthy (rootDirectory c0)). }
  rewrite Hr1, Hg1, Hd1. unfold expectedPrompts.
  destruct (truthy (rootDirectory c0)), (truthy (globPatterns c0)),
    (truthy (dest c0)); reflexivity.
Qed.

(** A saved configuration that has the three fields goes straight to the
    build library. *)
Lemma generateSW_all_saved (c : Config) :
  getConfigFile io = Resolved (Some c) ->
  truthy (rootDirectory c) = true ->
  truthy (globPatterns c) = true ->
  truthy (dest c) = true ->
  generateSW' =
  ([GetConfigFile; GenerateSW (set_wasSaved true c)],
   generateSW io (set_wasSaved true c)).
Proof.
  destruct c as [r g i d w]. simpl. intros Hget Hr Hg Hd.
  unfold _generateSW, assembleConfig, loadSavedConfig, ensureRootDirectory,
    ensureGlobPatterns, ensureDest, askWhetherToSave, saveIfAsked, call.
  rewrite Hget. simpl. rewrite Hr. simpl. rewrite Hg. simpl. rewrite Hd.
  reflexivity.
Qed.

(** A prompt that was shown filled a field that was unset, whatever the
    answers. *)
Lemma assemble_prompt_unset (savedConfig : option Config) :
  getConfigFile io = Resolved savedConfig ->
  (In AskForRootOfWebApp (trace assemble') ->
   truthy (rootDirectory (loaded savedConfig)) = false)
  /\ (forall root, In (AskForExtensionsToCache root) (trace assemble') ->
                   truthy (globPatterns (loaded savedConfig)) = false)
  /\ (In AskForServiceWorkerName (trace assemble') ->
      truthy (dest (loaded savedConfig)) = false).
Proof.
  intros Hget. rewrite (trace_assemble _ Hget).
  set (c0 := loaded savedConfig).
  rewrite trace_ensureRoot.
  destruct (settled (ensureRoot' c0)) as [c1|] eqn:E1.
  - destruct (ensureRoot_keeps _ _ E1) as (Hg1 & _ & Hd1 & _).
    rewrite trace_ensureGlob, Hg1.
    destruct (settled (ensureGlob' c1)) as [c2|] eqn:E2.
    + destruct (ensureGlob_keeps _ _ E2) as (_ & _ & Hd2 & _).
      rewrite trace_ensureDest, Hd2, Hd1.
      destruct (truthy (rootDirectory c0)), (truthy (globPatterns c0)),
        (truthy (dest c0)); simpl;
        repeat split; try reflexivity; intros;
        intuition (try discriminate; try congruence).
    + destruct (truthy (rootDirectory c0)), (truthy (globPatterns c0));
        simpl; repeat split; try reflexivity; intros;
        intuition (try discriminate; try congruence).
  - destruct (truthy (rootDirectory c0)); simpl;
      repeat split; try reflexivity; intros;
      intuition (try discriminate; try congruence).
Qed.

Lemma prompt_in_generateSW (e : event) :
  isPrompt e = true ->
  In e (trace generateSW') -> In e (trace assemble').
Proof.
  intros He Hin.
  assert (H : In e (filter isPrompt (trace generateSW')))
    by (apply filter_In; auto).
  rewrite prompts_of_generateSW in H. now apply filter_In in H.
Qed.

(** C7: in [_generateSW], once the saved configuration (if any) is
    loaded, a field prompt is shown only when its field is unset; with
    every prompt answered, the root prompt is shown exactly when
    [rootDirectory] is unset, the extensions prompt exactly when
    [globPatterns] is unset and the service-worker-name prompt exactly
    when [dest] is unset, in that order; a saved configuration that has
    all three fields skips every prompt and the service-worker delegate
    is called at once with the loaded configuration. *)
Theorem generateSW_prompts (savedConfig : option Config) :
  getConfigFile io = Resolved savedConfig ->
  ((In AskForRootOfWebApp (trace generateSW') ->
    truthy (rootDirectory (loaded savedConfig)) = false)
   /\ (forall root, In (AskForExtensionsToCache root) (trace generateSW') ->
                    truthy (globPatterns (loaded savedConfig)) = false)
   /\ (In AskForServiceWorkerName (trace generateSW') ->
       truthy (dest (loaded savedConfig)) = false))
  /\ (forall rDirectory,
      askForRootOfWebApp io = Resolved rDirectory ->
      (forall root, isResolved (askForExtensionsToCache io root) = true) ->
      isResolved (askForServiceWorkerName io) = true ->
      (In AskForRootOfWebApp (trace generateSW') <->
       truthy (rootDirectory (loaded savedConfig)) = false)
      /\ ((exists root, In (AskForExtensionsToCache root) (trace generateSW')) <->
          truthy (globPatterns (loaded savedConfig)) = false)
      /\ (In AskForServiceWorkerName (trace generateSW') <->
          truthy (dest (loaded savedConfig)) = false)
      /\ filter isPrompt (trace generateSW') =
         expectedPrompts cwd (loaded savedConfig) rDirectory)
  /\ (forall c,
         savedConfig = Some c ->
         truthy (rootDirectory c) = true ->
         truthy (globPatterns c) = true ->
         truthy (dest c) = true ->
         generateSW' =
         ([GetConfigFile; GenerateSW (set_wasSaved true c)],
          generateSW io (set_wasSaved true c))).
Proof.
  intros Hget.
  destruct (assemble_prompt_unset _ Hget) as (Hroot1 & Hexts1 & Hname1).
  split; [|split].
  - split; [|split].
    + intros H. apply Hroot1. now apply prompt_in_generateSW.
    + intros root H. apply (Hexts1 root). now apply prompt_in_generateSW.
    + intros H. apply Hname1. now apply prompt_in_generateSW.
  - intros rDirectory Hroot Hexts Hname.
    pose proof (assemble_prompts _ _ Hget Hroot Hexts Hname) as Hp.
    rewrite <- prompts_of_generateSW in Hp.
    assert (Hin : forall e, isPrompt e = true ->
              In e (expectedPrompts cwd (loaded savedConfig) rDirectory) ->
              In e (trace generateSW')).
    { intros e He H. rewrite <- Hp in H. now apply filter_In in H. }
    split; [|split; [|split; [|exact Hp]]].
    + split; [intros H; apply Hroot1; now apply prompt_in_generateSW|].
      intros H. apply (Hin AskForRootOfWebApp eq_refl).
      unfold expectedPrompts. rewrite H. now left.
    + split.
      * intros [root H]. apply (Hexts1 root). now apply prompt_in_generateSW.
      * intros H. exists (rootAfter cwd (loaded savedConfig) rDirectory).
        apply (Hin (AskForExtensionsToCache _) eq_refl).
        unfold expectedPrompts. rewrite H.
        apply in_or_app. right. now left.
    + split; [intros H; apply Hname1; now apply prompt_in_generateSW|].
      intros H. apply (Hin AskForServiceWorkerName eq_refl).
      unfold expectedPrompts. rewrite H.
      apply in_or_app. right. apply in_or_app. right. now left.
  - intros c -> Hr Hg Hd. now apply generateSW_all_saved.
Qed.

(** The pretty relative path of a directory name has no leading [./]. *)
Lemma prettyRoot_simple_name (d : string) :
  Path.isAbsolute cwd = true -> simpleName d = true ->
  prettyRoot cwd d = d ++ "/".
Proof.
  intros Habs Hd. unfold prettyRoot.
  rewrite (PathFacts.relative_simple_name cwd d Habs Hd).
  now apply PathFacts.join_dot_simple_name.
Qed.

(** C4, what the code computes: from an absolute working directory, the
    answer [''] is normalised to [./], but the answer [build] is
    normalised to [build/], without the leading [./] that the comment in
    the source announces; [_generateSW] stores that value in
    [rootDirectory]. *)
Theorem rootDirectory_of_build :
  Path.isAbsolute cwd = true ->
  prettyRoot cwd "" = "./"
  /\ prettyRoot cwd "build" = "build/"
  /\ (askForRootOfWebApp io = Resolved "build" ->
      ensureRoot' emptyConfig =
      ([AskForRootOfWebApp], Resolved (set_rootDirectory "build/" emptyConfig))).
Proof.
  intros Habs.
  assert (Hbuild : prettyRoot cwd "build" = "build/")
    by now apply prettyRoot_simple_name.
  split; [|split; [exact Hbuild|]].
  - unfold prettyRoot. now rewrite (PathFacts.relative_empty cwd Habs).
  - intros Hroot. unfold ensureRootDirectory, call. simpl.
    rewrite Hroot. simpl. now rewrite Hbuild.
Qed.

End Workflows.

(** ** Command mode *)
Section CommandMode.

Variable helpText : string.
Variable pkgVersion : string.
Variable generateGlobPattern : jsval -> list string -> string.
Variable cwd : string.
Variable minimist : list string -> CliArgs.
Variable io : Collaborators.

Local Abbreviation argv' :=
  (argv helpText pkgVersion generateGlobPattern cwd minimist io).
Local Abbreviation generateSW' := (_generateSW generateGlobPattern cwd io).




End CommandMode.


(** ** The statements at concrete runs *)

Lemma argv_exit_status_witness :
  argv "usage" "1.0.0" sampleGlob sampleCwd plainParser freshRun [] =
  ([UpdateNotify; Log "usage"; Exit 1], 1%Z)
  /\ snd (argv "usage" "1.0.0" sampleGlob sampleCwd plainParser freshRun
               ["generate:manifest"]) = 0%Z.
Proof.
  split.
  - apply (proj1 (proj2 (argv_exit_status "usage" "1.0.0" sampleGlob sampleCwd
                                          plainParser freshRun []))).
    reflexivity.
  - rewrite (proj1 (argv_exit_status "usage" "1.0.0" sampleGlob sampleCwd
                      plainParser freshRun ["generate:manifest"])
               eq_refl).
    reflexivity.
Defined.

Lemma handleCommand_invalid_witness :
  argv "usage" "1.0.0" sampleGlob sampleCwd plainParser freshRun
       ["generate"; "sw"] =
  ([UpdateNotify; LogError "Invlaid command given 'generate'"; Exit 1], 1%Z).
Proof.
  apply (proj2 (handleCommand_invalid "usage" "1.0.0" sampleGlob sampleCwd
                  plainParser freshRun (JStr "generate") [JStr "sw"]
                  (noFlags [JStr "generate"]) ["generate"; "sw"]
                  ltac:(discriminate) ltac:(discriminate))).
  reflexivity.
Defined.

Lemma handleFlag_spec_witness :
  settled (handleFlag "usage" "1.0.0" (plainParser ["-h"])) = Resolved tt
  /\ settled (handleFlag "usage" "1.0.0" (plainParser ["--version"])) =
     Resolved tt
  /\ handleFlag "usage" "1.0.0" (plainParser []) = ([Log "usage"], Rejected).
Proof.
  split; [|split].
  - apply (proj1 (handleFlag_spec "usage" "1.0.0" sampleGlob sampleCwd freshRun
                    (plainParser ["-h"]))).
    reflexivity.
  - apply (proj1 (proj2 (handleFlag_spec "usage" "1.0.0" sampleGlob sampleCwd
                           freshRun (plainParser ["--version"])))).
    reflexivity.
  - apply (proj1 (proj2 (proj2 (handleFlag_spec "usage" "1.0.0" sampleGlob
                                  sampleCwd freshRun (plainParser []))))).
    + reflexivity.
    + reflexivity.
Defined.

Lemma handleFlag_help_and_version_witness :
  argv "usage" "1.0.0" sampleGlob sampleCwd plainParser freshRun
       ["--version"; "--help"] =
  ([UpdateNotify; Log "usage"; Log "1.0.0"; Exit 0], 0%Z).
Proof.
  apply (proj2 (handleFlag_help_and_version "usage" "1.0.0" sampleGlob
                  sampleCwd plainParser freshRun ["--version"; "--help"]
                  eq_refl eq_refl eq_refl)).
Defined.

Lemma rootDirectory_of_build_witness :
  prettyRoot sampleCwd "" = "./"
  /\ prettyRoot sampleCwd "build" = "build/"
  /\ ensureRootDirectory sampleCwd freshRun emptyConfig =
     ([AskForRootOfWebApp], Resolved (set_rootDirectory "build/" emptyConfig)).
Proof.
  destruct (rootDirectory_of_build sampleCwd freshRun eq_refl) as (H1 & H2 & H3).
  split; [exact H1|]. split; [exact H2|]. apply H3. reflexivity.
Defined.

(** The saved configuration [bareConfig] reaches the build library as it
    was loaded: [dest] is ["sw.js"] and there is no [globIgnores]. *)
Lemma generateSW_ignores_dest_fails :
  ~ (forall io config,
        In (GenerateSW config) (trace (_generateSW sampleGlob sampleCwd io)) ->
        ignoresDest config = true).
Proof.
  intros H.
  specialize (H bareRun (set_wasSaved true bareConfig)).
  assert (Hin : In (GenerateSW (set_wasSaved true bareConfig))
                   (trace (_generateSW sampleGlob sampleCwd bareRun))).
  { right. left. reflexivity. }
  apply H in Hin. discriminate Hin.
Qed.

Lemma delegate_config_ignores_dest_witness :
  ignoresDest (manifestConfig sampleGlob "build" ["js"; "css"] "manifest.js")
  = true
  /\ ignoresDest (set_wasSaved true completeConfig) = true.
Proof.
  split.
  - apply (proj1 (delegate_config_ignores_dest sampleGlob sampleCwd freshRun _)).
    do 3 right. left. reflexivity.
  - apply (proj1 (proj2 (delegate_config_ignores_dest sampleGlob sampleCwd
                           savedRun _))).
    + intros c [= <-] _. reflexivity.
    + right. left. reflexivity.
Defined.

Lemma generateSW_save_iff_witness :
  In (SaveConfigFile
        (mkConfig (JStr "build/") (jstrings ["build/**/*.{js,css}"])
                  (jstrings ["build/sw.js"]) (JStr "build/sw.js") JUndefined))
     (trace (_generateSW sampleGlob sampleCwd savingRun)).
Proof.
  apply (proj1 (generateSW_save_iff sampleGlob sampleCwd savingRun _)).
  split; [reflexivity|]. split; reflexivity.
Defined.

Lemma generateBuildManifest_spec_witness :
  _generateBuildManifest sampleGlob freshRun =
  ([AskForRootOfWebApp; AskForExtensionsToCache (JStr "build");
    AskManifestFileName;
    GenerateFileManifest
      (mkConfig (JStr "build") (jstrings ["build**/*.{js,css}"])
                (jstrings ["build/manifest.js"]) (JStr "build/manifest.js") JUndefined)],
   Resolved tt).
Proof.
  apply (proj2 (proj2 (proj2 (generateBuildManifest_spec sampleGlob freshRun)))
           "build" ["js"; "css"] "manifest.js"); reflexivity.
Defined.

Lemma generateSW_prompts_witness :
  filter isPrompt (trace (_generateSW sampleGlob sampleCwd freshRun)) =
  [AskForRootOfWebApp; AskForExtensionsToCache (JStr "build/");
   AskForServiceWorkerName]
  /\ _generateSW sampleGlob sampleCwd savedRun =
     ([GetConfigFile; GenerateSW (set_wasSaved true completeConfig)],
      Resolved tt).
Proof.
  split.
  - apply (proj1 (proj2 (generateSW_prompts sampleGlob sampleCwd freshRun None
                           eq_refl))
             "build" eq_refl (fun _ => eq_refl) eq_refl).
  - apply (proj2 (proj2 (generateSW_prompts sampleGlob sampleCwd savedRun
                           (Some completeConfig) eq_refl))
             completeConfig eq_refl eq_refl eq_refl eq_refl).
Defined.



(** * Further properties *)

(** ** More on the path functions *)
Module PathShape.
Import Path.

Lemma append_assoc (a b c : string) : (a ++ b) ++ c = a ++ (b ++ c).
Proof. induction a as [|x a IH]; simpl; [reflexivity|now rewrite IH]. Qed.

Lemma nonempty_app_l (a b : string) :
  nonempty a = true -> nonempty (a ++ b) = true.
Proof. destruct a; [discriminate|reflexivity]. Qed.

Lemma isAbsolute_app (a b : string) :
  nonempty a = true -> isAbsolute (a ++ b) = isAbsolute a.
Proof. destruct a; [discriminate|reflexivity]. Qed.

(** A normalised path is never the empty string. *)
Lemma normalize_nonempty (p : string) : nonempty (normalize p) = true.
Proof.
  unfold normalize. destruct (isAbsolute p); [reflexivity|].
  set (body := unsplit _). cbv zeta. change (negb false) with true.
  destruct (nonempty body) eqn:E; destruct (trailingSlash p);
    cbn [negb andb]; rewrite ?E; cbn [negb andb];
    try reflexivity; try exact E.
  change ("" ++ (body ++ "/")) with (body ++ "/"). now apply nonempty_app_l.
Qed.

Lemma join_nonempty (segments : list string) :
  nonempty (join segments) = true.
Proof. apply normalize_nonempty. Qed.

(** The segments kept by [normalizeArray] are never empty and hold no
    separator, whether or not the path may climb above its root. *)
Lemma normalizeStep_segments (above : bool) (res : list string) (p : string) :
  noSlash p = true ->
  Forall (fun s => goodSegment s = true) res ->
  Forall (fun s => goodSegment s = true) (normalizeStep above res p).
Proof.
  intros Hp Hres. unfold normalizeStep.
  destruct (String.eqb p "") eqn:E1; [assumption|].
  destruct (String.eqb p ".") eqn:E2; [assumption|]. simpl.
  destruct (String.eqb p "..") eqn:E3.
  - apply String.eqb_eq in E3. subst p.
    destruct res as [|r rs].
    + destruct above; repeat constructor.
    + destruct (last_is_dotdot (r :: rs)).
      * destruct above; [|assumption].
        apply Forall_app. split; [assumption|repeat constructor].
      * now apply PathFacts.removelast_Forall.
  - apply Forall_app. split; [assumption|].
    constructor; [|constructor]. unfold goodSegment, nonempty.
    now rewrite Hp, E1.
Qed.

Lemma normalizeArray_segments (above : bool) (parts : list string) :
  Forall (fun s => noSlash s = true) parts ->
  Forall (fun s => goodSegment s = true) (normalizeArray parts above).
Proof.
  unfold normalizeArray. generalize (@nil string) (Forall_nil (fun s => goodSegment s = true)).
  induction parts as [|p parts IH]; intros res Hres Hparts; [assumption|].
  inversion Hparts; subst. simpl. apply IH; [|assumption].
  now apply normalizeStep_segments.
Qed.

Lemma goodSegment_relative (s : string) :
  goodSegment s = true -> isAbsolute s = false.
Proof.
  destruct s as [|c s]; [reflexivity|]. unfold goodSegment. simpl.
  intros H. apply andb_true_iff in H as [H _].
  apply andb_true_iff in H as [H _]. now apply negb_true_iff in H.
Qed.

Lemma unsplit_relative (res : list string) :
  Forall (fun s => goodSegment s = true) res -> isAbsolute (unsplit res) = false.
Proof.
  intros H. destruct res as [|x rest]; [reflexivity|].
  inversion H as [|? ? Hx _]; subst.
  destruct rest as [|y ys].
  - now apply goodSegment_relative.
  - change (unsplit (x :: y :: ys)) with (x ++ (sep ++ unsplit (y :: ys))).
    rewrite isAbsolute_app; [now apply goodSegment_relative|].
    now apply andb_true_iff in Hx as [_ Hx].
Qed.

(** Normalising a relative path that ends in a separator gives a
    relative path that ends in a separator. *)
Lemma normalize_relative_dir (p : string) :
  isAbsolute p = false -> trailingSlash p = true ->
  trailingSlash (normalize p) = true /\ isAbsolute (normalize p) = false.
Proof.
  intros Habs Htr. unfold normalize. rewrite Habs, Htr. cbv zeta.
  change (negb false) with true.
  set (res := normalizeArray (split p) true).
  assert (Hres : Forall (fun s => goodSegment s = true) res)
    by apply normalizeArray_segments, PathFacts.split_parts_noSlash.
  destruct (nonempty (unsplit res)) eqn:E;
    cbn [negb andb]; rewrite ?E; cbn [negb andb].
  - change ("" ++ unsplit res ++ "/") with (unsplit res ++ "/"). split.
    + now rewrite PathFacts.trailingSlash_app.
    + rewrite isAbsolute_app by exact E. now apply unsplit_relative.
  - split; reflexivity.
Qed.

Lemma noSlash_no_trailing (s : string) :
  noSlash s = true -> trailingSlash s = false.
Proof.
  induction s as [|c s IH]; [reflexivity|]. simpl. intros H.
  apply andb_true_iff in H as [Hc Hs]. apply negb_true_iff in Hc.
  destruct s; [exact Hc|now apply IH].
Qed.

(** Joining a directory name and a file name. *)
Lemma join_dir_file (d f : string) :
  simpleName d = true -> simpleName f = true ->
  join [d ++ "/"; f] = d ++ "/" ++ f.
Proof.
  intros Hd Hf.
  destruct (PathFacts.simpleName_parts d Hd) as (Hdns & Hdne & _ & _).
  destruct (PathFacts.simpleName_parts f Hf) as (Hfns & Hfne & _ & _).
  set (p := d ++ String slash ("" ++ String slash f)).
  assert (Hglue : fold_left glue [d ++ "/"; f] "" = p).
  { simpl fold_left. unfold glue. rewrite Hfne.
    rewrite (nonempty_app_l d "/" Hdne). change (nonempty "") with false.
    cbv iota. rewrite (nonempty_app_l d "/" Hdne).
    unfold p. now rewrite append_assoc. }
  assert (Habs : isAbsolute p = false).
  { unfold p. rewrite isAbsolute_app by exact Hdne.
    apply goodSegment_relative. unfold goodSegment. now rewrite Hdns, Hdne. }
  assert (Htr : trailingSlash p = false).
  { unfold p. rewrite PathFacts.trailingSlash_app by discriminate.
    change (String slash ("" ++ String slash f)) with ("//" ++ f).
    rewrite PathFacts.trailingSlash_app
      by (intros E; rewrite E in Hfne; discriminate).
    now apply noSlash_no_trailing. }
  assert (Hparts : normalizeArray (split p) true = [d; f]).
  { unfold p. rewrite !PathFacts.split_app.
    rewrite (PathFacts.split_noSlash d Hdns), (PathFacts.split_noSlash f Hfns).
    unfold normalizeArray. simpl.
    rewrite (PathFacts.simpleName_step true [] d Hd).
    change (normalizeStep true ([] ++ [d]) "") with [d].
    now rewrite (PathFacts.simpleName_step true [d] f Hf). }
  unfold join. rewrite Hglue. unfold normalize.
  rewrite Habs, Htr. change (negb false) with true. rewrite Hparts.
  change (unsplit [d; f]) with (d ++ "/" ++ f).
  rewrite (nonempty_app_l d _ Hdne). cbn [negb andb].
  rewrite (nonempty_app_l d _ Hdne). reflexivity.
Qed.

End PathShape.

(** ** More on the dispatcher *)

(** As [links], for chains that also hold synchronous effects. *)
Ltac links_emit :=
  repeat match goal with
         | |- Forall _ (trace (andThen _ _)) =>
             apply Forall_andThen; [|intros ?]
         | |- Forall _ (trace (if ?b then _ else _)) => destruct b
         | |- Forall _ (trace (match ?x with _ => _ end)) => destruct x
         | |- Forall _ (trace (call _ _)) => apply Forall_call; reflexivity
         | |- Forall _ (trace (emit _)) => repeat constructor
         | |- Forall _ (trace (ret _)) => constructor
         | |- Forall _ (trace reject) => constructor
         end.

Section DispatcherShape.

Variable helpText : string.
Variable pkgVersion : string.
Variable generateGlobPattern : jsval -> list string -> string.
Variable cwd : string.
Variable minimist : list string -> CliArgs.
Variable io : Collaborators.

Local Abbreviation argv' :=
  (argv helpText pkgVersion generateGlobPattern cwd minimist io).
Local Abbreviation handler' :=
  (handlerPromise helpText pkgVersion generateGlobPattern cwd io).

Lemma handler_no_process_event (cliArgs : CliArgs) :
  Forall (fun e => isProcessEvent e = false) (trace (handler' cliArgs)).
Proof.
  unfold handlerPromise, handleCommand, handleFlag, printHelpText,
    _generateSW, _generateBuildManifest, assembleConfig, loadSavedConfig,
    ensureRootDirectory, ensureGlobPatterns, ensureDest, askWhetherToSave,
    saveIfAsked.
  destruct (positional cliArgs); links_emit.
Qed.

Lemma handleFlag_only_logs (flags : CliArgs) :
  Forall (fun e => isCollaboratorCall e = false)
         (trace (handleFlag helpText pkgVersion flags)).
Proof. unfold handleFlag, printHelpText. links_emit. Qed.

(** X1: [argv] notifies about updates first and calls [process.exit]
    last, and nothing in between does either: the process exits once,
    after all the work of the handler. *)
Theorem argv_exits_once (rawArgv : list string) :
  exists t,
    fst (argv' rawArgv) =
    (UpdateNotify :: t ++ [Exit (snd (argv' rawArgv))])%list
    /\ Forall (fun e => isProcessEvent e = false) t.
Proof.
  exists (trace (handler' (minimist rawArgv))). split.
  - now rewrite (argv_unfold helpText pkgVersion generateGlobPattern cwd
                             minimist io rawArgv).
  - apply handler_no_process_event.
Qed.

(** X2: without a positional token the exit status is 0 exactly when the
    help flag or the version flag is set. *)
Theorem argv_flag_mode_status (rawArgv : list string) :
  positional (minimist rawArgv) = [] ->
  (snd (argv' rawArgv) = 0%Z <->
   helpFlag (minimist rawArgv) || versionFlag (minimist rawArgv) = true).
Proof.
  intros Hpos.
  rewrite (argv_unfold helpText pkgVersion generateGlobPattern cwd
                       minimist io rawArgv).
  unfold handlerPromise. rewrite Hpos, handleFlag_cases.
  destruct (helpFlag (minimist rawArgv)), (versionFlag (minimist rawArgv));
    simpl; split; intros H; try reflexivity; discriminate H.
Qed.

(** X3: without a positional token nothing is asked, loaded, saved or
    generated: no prompt, no config-store call and no build-library call
    occurs in the run. *)
Theorem argv_flag_mode_no_calls (rawArgv : list string) :
  positional (minimist rawArgv) = [] ->
  Forall (fun e => isCollaboratorCall e = false) (fst (argv' rawArgv)).
Proof.
  intros Hpos.
  rewrite (argv_unfold helpText pkgVersion generateGlobPattern cwd
                       minimist io rawArgv).
  unfold handlerPromise. rewrite Hpos. cbv zeta. simpl fst.
  constructor; [reflexivity|]. apply Forall_app. split.
  - apply handleFlag_only_logs.
  - repeat constructor.
Qed.

(** X4: only the first positional token counts: two command lines whose
    parsed arguments start with the same command run alike, whatever
    tokens follow and whatever flags are set. *)
Theorem argv_first_token_only (rawArgv1 rawArgv2 : list string)
        (command : jsval) (args1 args2 : list jsval) :
  positional (minimist rawArgv1) = command :: args1 ->
  positional (minimist rawArgv2) = command :: args2 ->
  argv' rawArgv1 = argv' rawArgv2.
Proof.
  intros H1 H2. unfold argv. cbv zeta. rewrite H1, H2. reflexivity.
Qed.

End DispatcherShape.

(** ** More on the two workflows *)
Section WorkflowShape.

Variable generateGlobPattern : jsval -> list string -> string.
Variable cwd : string.
Variable io : Collaborators.

Local Abbreviation generateSW' := (_generateSW generateGlobPattern cwd io).
Local Abbreviation assemble' := (assembleConfig generateGlobPattern cwd io).
Local Abbreviation manifest' := (_generateBuildManifest generateGlobPattern io).
Local Abbreviation ensureRoot' := (ensureRootDirectory cwd io).
Local Abbreviation ensureGlob' := (ensureGlobPatterns generateGlobPattern io).
Local Abbreviation ensureDest' := (ensureDest io).

Lemma isString_inv (v : jsval) :
  isString v = true -> exists s, v = JStr s.
Proof. destruct v; try discriminate. eauto. Qed.

(** What each step establishes. *)
Lemma ensureRoot_sets (c c' : Config) :
  settled (ensureRoot' c) = Resolved c' ->
  truthy (rootDirectory c') = true
  /\ (truthy (rootDirectory c) = true -> c' = c).
Proof.
  unfold ensureRootDirectory.
  destruct (truthy (rootDirectory c)) eqn:E; simpl.
  - intros [= <-]. auto.
  - destruct (askForRootOfWebApp io); simpl; [|discriminate].
    intros [= <-]. split; [|discriminate]. apply PathShape.join_nonempty.
Qed.

Lemma ensureGlob_sets (c c' : Config) :
  settled (ensureGlob' c) = Resolved c' ->
  truthy (globPatterns c') = true
  /\ (truthy (globPatterns c) = true -> c' = c).
Proof.
  unfold ensureGlobPatterns.
  destruct (truthy (globPatterns c)) eqn:E; simpl.
  - intros [= <-]. auto.
  - destruct (askForExtensionsToCache io _); simpl; [|discriminate].
    intros [= <-]. split; [reflexivity|discriminate].
Qed.

Lemma ensureDest_sets (c c' : Config) :
  settled (ensureDest' c) = Resolved c' ->
  truthy (dest c') = true
  /\ rootDirectory c' = rootDirectory c
  /\ globPatterns c' = globPatterns c.
Proof.
  unfold ensureDest.
  destruct (truthy (dest c)) eqn:E; simpl.
  - intros [= <-]. auto.
  - destruct (askForServiceWorkerName io); simpl; [|discriminate].
    destruct (rootDirectory c) eqn:R; simpl; try discriminate.
    intros [= <-]. simpl. rewrite R.
    split; [apply PathShape.join_nonempty|auto].
Qed.

(** When [dest] is prompted for, [path.join] was given a string as
    root, and [globIgnores] is replaced by the one-element array holding
    the new [dest]. *)
Lemma ensureDest_fresh (c c' : Config) :
  settled (ensureDest' c) = Resolved c' ->
  truthy (dest c) = false ->
  isString (rootDirectory c) = true
  /\ exists swDest, dest c' = JStr swDest /\ globIgnores c' = jstrings [swDest].
Proof.
  unfold ensureDest. intros H Hd. rewrite Hd in H. simpl in H.
  destruct (askForServiceWorkerName io); simpl in H; [|discriminate].
  destruct (rootDirectory c) eqn:R; simpl in H; try discriminate.
  injection H as <-. split; [reflexivity|]. eexists. split; reflexivity.
Qed.

Lemma assemble_fresh_dest (savedConfig : option Config) (config : Config) :
  getConfigFile io = Resolved savedConfig ->
  settled assemble' = Resolved config ->
  truthy (dest (loaded savedConfig)) = false ->
  exists swDest,
    dest config = JStr swDest /\ globIgnores config = jstrings [swDest].
Proof.
  intros Hget. rewrite assemble_unfold, settled_andThen.
  change (settled (call GetConfigFile (getConfigFile io)))
    with (getConfigFile io).
  rewrite Hget, settled_andThen.
  destruct (settled (ensureRoot' (loaded savedConfig))) as [c1|] eqn:E1;
    [|discriminate].
  rewrite settled_andThen.
  destruct (settled (ensureGlob' c1)) as [c2|] eqn:E2; [|discriminate].
  intros E3 Hd.
  destruct (ensureRoot_keeps _ _ _ _ E1) as (_ & _ & Hd1 & _).
  destruct (ensureGlob_keeps _ _ _ _ E2) as (_ & _ & Hd2 & _).
  rewrite <- Hd1, <- Hd2 in Hd.
  now destruct (ensureDest_fresh _ _ E3 Hd) as (_ & H).
Qed.

(** The assembled configuration: complete, and equal to the loaded one
    on every field the loaded one had. *)
Lemma assemble_post (savedConfig : option Config) (config : Config) :
  getConfigFile io = Resolved savedConfig ->
  settled assemble' = Resolved config ->
  complete config = true
  /\ (truthy (rootDirectory (loaded savedConfig)) = true ->
      rootDirectory config = rootDirectory (loaded savedConfig))
  /\ (truthy (globPatterns (loaded savedConfig)) = true ->
      globPatterns config = globPatterns (loaded savedConfig)).
Proof.
  intros Hget. rewrite assemble_unfold, settled_andThen.
  change (settled (call GetConfigFile (getConfigFile io)))
    with (getConfigFile io).
  rewrite Hget, settled_andThen.
  destruct (settled (ensureRoot' (loaded savedConfig))) as [c1|] eqn:E1;
    [|discriminate].
  rewrite settled_andThen.
  destruct (settled (ensureGlob' c1)) as [c2|] eqn:E2; [|discriminate].
  intros E3.
  destruct (ensureRoot_sets _ _ E1) as (Hr1 & Hsame1).
  destruct (ensureRoot_keeps _ _ _ _ E1) as (Hg1 & _).
  destruct (ensureGlob_sets _ _ E2) as (Hg2 & Hsame2).
  destruct (ensureGlob_keeps _ _ _ _ E2) as (Hr2 & _).
  destruct (ensureDest_sets _ _ E3) as (Hd3 & Hr3 & Hg3).
  split; [|split].
  - unfold complete. rewrite Hd3, Hr3, Hg3, Hg2, Hr2, Hr1. reflexivity.
  - intros Ht. rewrite Hr3, Hr2, (Hsame1 Ht). reflexivity.
  - intros Ht. rewrite Hg3. rewrite <- Hg1 in Ht. rewrite (Hsame2 Ht).
    exact Hg1.
Qed.

Lemma finish_cases (c0 : Config) :
  (exists pre,
      finish io c0 = ((pre ++ [GenerateSW c0])%list, generateSW io c0)
      /\ Forall (fun e => isDelegate e = false) pre)
  \/ (settled (finish io c0) = Rejected
      /\ Forall (fun e => isDelegate e = false) (trace (finish io c0))).
Proof.
  unfold finish, askWhetherToSave, saveIfAsked, call.
  destruct (truthy (wasSaved c0));
    destruct (askSaveConfigFile io) as [[|]|];
    destruct (saveConfigFile io c0); simpl;
    first [ left; exists []; split; [reflexivity|repeat constructor]
          | left; exists [AskSaveConfigFile]; split;
            [reflexivity|repeat constructor]
          | left; exists [AskSaveConfigFile; SaveConfigFile c0]; split;
            [reflexivity|repeat constructor]
          | right; split; [reflexivity|repeat constructor] ].
Qed.

(** X5: [_generateSW] either calls the service-worker delegate exactly
    once, as its last action, with the assembled configuration, and
    settles as the delegate does; or it rejects without having called
    the delegate.  A successful run therefore has called the delegate,
    and the delegate succeeded. *)
Theorem generateSW_delegate_last :
  ((exists config pre,
       settled assemble' = Resolved config
       /\ generateSW' =
          ((pre ++ [GenerateSW config])%list, generateSW io config)
       /\ Forall (fun e => isDelegate e = false) pre)
   \/ (settled generateSW' = Rejected
       /\ Forall (fun e => isDelegate e = false) (trace generateSW')))
  /\ (settled generateSW' = Resolved tt ->
      exists config,
        In (GenerateSW config) (trace generateSW')
        /\ generateSW io config = Resolved tt).
Proof.
  assert (Hcases :
    (exists config pre,
        settled assemble' = Resolved config
        /\ generateSW' =
           ((pre ++ [GenerateSW config])%list, generateSW io config)
        /\ Forall (fun e => isDelegate e = false) pre)
    \/ (settled generateSW' = Rejected
        /\ Forall (fun e => isDelegate e = false) (trace generateSW'))).
  { rewrite generateSW_split.
    pose proof (assemble_no_delegate generateGlobPattern cwd io) as Hasm.
    destruct assemble' as [t [c|]]; simpl in Hasm |- *.
    - destruct (finish_cases c) as [(pre & Hfin & Hpre)|(Hrej & Hpre)].
      + left. exists c, (t ++ pre)%list. split; [reflexivity|].
        rewrite Hfin. split; [now rewrite app_assoc|].
        apply Forall_app. auto.
      + right. destruct (finish io c) as [t' r]. simpl in *. subst r.
        split; [reflexivity|]. apply Forall_app. auto.
    - right. auto. }
  split; [exact Hcases|].
  intros Hok. destruct Hcases as [(c & pre & _ & Hrun & _)|(Hrej & _)].
  - exists c. rewrite Hrun in *. simpl in *. split; [|exact Hok].
    apply in_or_app. right. now left.
  - congruence.
Qed.

(** Whether the configuration can be assembled when every prompt and
    the config store resolve: only [path.join] on a root that is not a
    string stands in the way. *)
Lemma assemble_resolves_iff (savedConfig : option Config) :
  getConfigFile io = Resolved savedConfig ->
  isResolved (askForRootOfWebApp io) = true ->
  (forall root, isResolved (askForExtensionsToCache io root) = true) ->
  isResolved (askForServiceWorkerName io) = true ->
  ((exists config, settled assemble' = Resolved config) <->
   (truthy (rootDirectory (loaded savedConfig)) = true ->
    truthy (dest (loaded savedConfig)) = false ->
    isString (rootDirectory (loaded savedConfig)) = true)).
Proof.
  intros Hget Hroot Hexts Hname.
  destruct (isResolved_inv _ Hroot) as [rDirectory Eroot].
  destruct (isResolved_inv _ Hname) as [swName Ename].
  rewrite assemble_unfold, settled_andThen.
  change (settled (call GetConfigFile (getConfigFile io)))
    with (getConfigFile io).
  rewrite Hget, settled_andThen, (ensureRoot_resolved _ _ _ _ Eroot).
  set (c0 := loaded savedConfig).
  set (c1 := if truthy (rootDirectory c0) then c0
             else set_rootDirectory (prettyRoot cwd rDirectory) c0).
  destruct (ensureGlob_resolved generateGlobPattern io c1 Hexts) as [c2 E2].
  rewrite settled_andThen, E2.
  destruct (ensureGlob_keeps _ _ _ _ E2) as (Hr2 & _ & Hd2 & _).
  assert (Hd1 : dest c1 = dest c0).
  { unfold c1. now destruct (truthy (rootDirectory c0)). }
  unfold ensureDest, call. rewrite Ename, Hd2, Hd1, Hr2.
  destruct (truthy (dest c0)) eqn:Hd; simpl.
  - split; [discriminate|eauto].
  - unfold c1. destruct (truthy (rootDirectory c0)) eqn:Hr.
    + destruct (rootDirectory c0); simpl; split;
        try (intros _; eauto; fail);
        try (intros [config H]; discriminate H);
        try (intros H; discriminate (H eq_refl eq_refl)).
    + simpl. split; [discriminate|eauto].
Qed.

(** X6: with the config store, every prompt and the build library
    resolving, [_generateSW] resolves, except in one case: a loaded
    configuration whose [rootDirectory] is truthy but not a string and
    which has no [dest] makes [path.join] throw, and the workflow
    rejects.  With nothing loaded it always resolves. *)
Theorem generateSW_resolves (savedConfig : option Config) :
  getConfigFile io = Resolved savedConfig ->
  isResolved (askForRootOfWebApp io) = true ->
  (forall root, isResolved (askForExtensionsToCache io root) = true) ->
  isResolved (askForServiceWorkerName io) = true ->
  isResolved (askSaveConfigFile io) = true ->
  (forall config, isResolved (saveConfigFile io config) = true) ->
  (forall config, isResolved (generateSW io config) = true) ->
  (settled generateSW' = Resolved tt <->
   (truthy (rootDirectory (loaded savedConfig)) = true ->
    truthy (dest (loaded savedConfig)) = false ->
    isString (rootDirectory (loaded savedConfig)) = true))
  /\ (savedConfig = None -> settled generateSW' = Resolved tt).
Proof.
  intros Hget Hroot Hexts Hname Hask Hsave Hgen.
  pose proof (assemble_resolves_iff savedConfig Hget Hroot Hexts Hname) as Hasm.
  assert (Hfin : forall config, settled (finish io config) = Resolved tt).
  { intros config. unfold finish, askWhetherToSave, saveIfAsked, call.
    destruct (isResolved_inv _ Hask) as [answer ->].
    destruct (isResolved_inv _ (Hsave config)) as [[] ->].
    destruct (isResolved_inv _ (Hgen config)) as [[] ->].
    destruct (truthy (wasSaved config)), answer; reflexivity. }
  assert (Hiff : settled generateSW' = Resolved tt <->
                 exists config, settled assemble' = Resolved config).
  { rewrite generateSW_split, settled_andThen.
    destruct (settled assemble') as [config|].
    - rewrite Hfin. split; eauto.
    - split; [discriminate|intros [config H]; discriminate H]. }
  split.
  - rewrite Hiff. exact Hasm.
  - intros ->. apply Hiff, Hasm. discriminate.
Qed.

(** X7: the configuration handed to the service-worker delegate is
    complete: [rootDirectory], [globPatterns] and [dest] are all truthy,
    whatever was loaded and answered. *)
Theorem generateSW_delegate_complete (config : Config) :
  In (GenerateSW config) (trace generateSW') -> complete config = true.
Proof.
  intros Hin. apply delegate_in_generateSW in Hin.
  destruct (assemble_resolved _ _ _ _ Hin) as (savedConfig & Hget & _).
  now destruct (assemble_post savedConfig config Hget Hin) as (H & _).
Qed.

(** X8: what becomes of the fields of a saved configuration: each of
    [rootDirectory], [globPatterns] and [dest] that it holds with a
    truthy value reaches the delegate unchanged, and the configuration
    is marked [wasSaved]; [globIgnores] is kept when [dest] is kept, and
    is replaced by the array holding the new [dest] when [dest] is
    prompted for. *)
Theorem generateSW_keeps_saved_fields (saved config : Config) :
  getConfigFile io = Resolved (Some saved) ->
  In (GenerateSW config) (trace generateSW') ->
  wasSaved config = JBool true
  /\ (truthy (rootDirectory saved) = true ->
      rootDirectory config = rootDirectory saved)
  /\ (truthy (globPatterns saved) = true ->
      globPatterns config = globPatterns saved)
  /\ (truthy (dest saved) = true ->
      dest config = dest saved /\ globIgnores config = globIgnores saved)
  /\ (truthy (dest saved) = false ->
      exists swDest,
        dest config = JStr swDest /\ globIgnores config = jstrings [swDest]).
Proof.
  intros Hget Hin. apply delegate_in_generateSW in Hin.
  destruct (assemble_post (Some saved) config Hget Hin) as (_ & Hroot & Hglob).
  destruct (assemble_resolved _ _ _ _ Hin)
    as (savedConfig & Hget' & Hw & Hdest & _).
  replace savedConfig with (Some saved) in * by congruence.
  split; [exact Hw|]. split; [exact Hroot|]. split; [exact Hglob|].
  split; [exact Hdest|].
  intros Hd. now apply (assemble_fresh_dest (Some saved) config Hget Hin).
Qed.

Lemma save_in_generateSW (config : Config) :
  In (SaveConfigFile config) (trace generateSW') ->
  settled assemble' = Resolved config
  /\ truthy (wasSaved config) = false.
Proof.
  rewrite generateSW_split, trace_andThen, in_app_iff. intros [H|H].
  - now apply (not_in_of_Forall_false isSave _ _
                 (assemble_no_save generateGlobPattern cwd io)) in H.
  - destruct (settled assemble') as [c0|]; [|destruct H].
    apply save_in_finish in H as (-> & Hw & _). auto.
Qed.

Lemma saved_is_complete (config : Config) :
  In (SaveConfigFile config) (trace generateSW') -> complete config = true.
Proof.
  intros Hin. apply save_in_generateSW in Hin as (Hasm & _).
  destruct (assemble_resolved _ _ _ _ Hasm) as (savedConfig & Hget & _).
  now destruct (assemble_post savedConfig config Hget Hasm) as (H & _).
Qed.

(** X9: what [_generateSW] writes to the config store is the complete
    configuration it then hands to the delegate, and it carries no
    [wasSaved] mark. *)
Theorem generateSW_saved_config (config : Config) :
  In (SaveConfigFile config) (trace generateSW') ->
  wasSaved config = JUndefined
  /\ complete config = true
  /\ (forall config', In (GenerateSW config') (trace generateSW') ->
                      config' = config).
Proof.
  intros Hin. apply save_in_generateSW in Hin as (Hasm & Hw).
  destruct (assemble_resolved _ _ _ _ Hasm) as (savedConfig & Hget & Hws & _).
  split; [|split].
  - rewrite Hws in Hw |- *. now destruct savedConfig.
  - now destruct (assemble_post savedConfig config Hget Hasm) as (H & _).
  - intros config' H. apply delegate_in_generateSW in H. congruence.
Qed.

End WorkflowShape.

(** ** Saving, then loading *)
Section RoundTrip.

Variable generateGlobPattern : jsval -> list string -> string.
Variable cwd : string.

(** X10: a configuration saved by one run of [_generateSW] and returned
    by the config store to a later run makes that run skip every prompt:
    it loads the configuration and calls the delegate with it, marked
    [wasSaved]. *)
Theorem generateSW_save_then_load (first later : Collaborators)
        (config : Config) :
  In (SaveConfigFile config)
     (trace (_generateSW generateGlobPattern cwd first)) ->
  getConfigFile later = Resolved (Some config) ->
  _generateSW generateGlobPattern cwd later =
  ([GetConfigFile; GenerateSW (set_wasSaved true config)],
   generateSW later (set_wasSaved true config)).
Proof.
  intros Hsaved Hget.
  pose proof (saved_is_complete generateGlobPattern cwd first config Hsaved)
    as Hcomplete.
  unfold complete in Hcomplete.
  apply andb_true_iff in Hcomplete as [Hcomplete Hd].
  apply andb_true_iff in Hcomplete as [Hr Hg].
  now apply generateSW_all_saved.
Qed.

End RoundTrip.

(** ** More on the manifest workflow and on the root directory *)
Section ManifestShape.

Variable generateGlobPattern : jsval -> list string -> string.
Variable cwd : string.
Variable io : Collaborators.

Local Abbreviation manifest' := (_generateBuildManifest generateGlobPattern io).
Local Abbreviation assemble' := (assembleConfig generateGlobPattern cwd io).

(** X11: the manifest workflow calls [generateFileManifest] exactly when
    its three prompts resolve, each prompt being shown only after the one
    before resolved; it resolves exactly when, in addition, the delegate
    resolves. *)
Theorem generateBuildManifest_delegate_iff :
  ((exists config, In (GenerateFileManifest config) (trace manifest')) <->
   (exists root exts name,
       askForRootOfWebApp io = Resolved root
       /\ askForExtensionsToCache io (JStr root) = Resolved exts
       /\ askManifestFileName io = Resolved name))
  /\ (settled manifest' = Resolved tt <->
      (exists root exts name,
          askForRootOfWebApp io = Resolved root
          /\ askForExtensionsToCache io (JStr root) = Resolved exts
          /\ askManifestFileName io = Resolved name
          /\ generateFileManifest io
               (manifestConfig generateGlobPattern root exts name) =
             Resolved tt))
  /\ (askForRootOfWebApp io = Rejected ->
      manifest' = ([AskForRootOfWebApp], Rejected))
  /\ (forall root,
         askForRootOfWebApp io = Resolved root ->
         askForExtensionsToCache io (JStr root) = Rejected ->
         manifest' =
         ([AskForRootOfWebApp; AskForExtensionsToCache (JStr root)], Rejected)).
Proof.
  unfold _generateBuildManifest, call.
  destruct (askForRootOfWebApp io) as [root|] eqn:Eroot; simpl.
  - destruct (askForExtensionsToCache io (JStr root)) as [exts|] eqn:Eexts;
      simpl.
    + destruct (askManifestFileName io) as [name|] eqn:Ename; simpl.
      * split; [|split; [|split]].
        -- split; [|intros _; eexists; do 3 right; left; reflexivity].
           intros _. exists root, exts, name. auto.
        -- split.
           ++ intros H. exists root, exts, name. auto.
           ++ intros (r & e & n & [= <-] & He & [= <-] & H).
              rewrite Eexts in He. injection He as <-. exact H.
        -- discriminate.
        -- intros r [= <-]. rewrite Eexts. discriminate.
      * split; [|split; [|split]].
        -- split.
           ++ intros [c H]. simpl in H.
              intuition (try discriminate; try congruence).
           ++ intros (r & e & n & _ & _ & H). discriminate H.
        -- split; [discriminate|].
           intros (r & e & n & _ & _ & H & _). discriminate H.
        -- discriminate.
        -- intros r [= <-]. rewrite Eexts. discriminate.
    + split; [|split; [|split]].
      * split.
        -- intros [c H]. simpl in H.
           intuition (try discriminate; try congruence).
        -- intros (r & e & n & [= <-] & H & _). congruence.
      * split; [discriminate|].
        intros (r & e & n & [= <-] & H & _). congruence.
      * discriminate.
      * intros r [= <-]. reflexivity.
  - split; [|split; [|split]].
    + split.
      * intros [c H]. simpl in H. intuition (try discriminate; try congruence).
      * intros (r & e & n & H & _). discriminate H.
    + split; [discriminate|]. intros (r & e & n & H & _). discriminate H.
    + reflexivity.
    + discriminate.
Qed.

(** X12: the root directory stored after the root prompt always ends in
    the separator, is never empty and is never absolute, whatever the
    answer and the working directory. *)
Theorem rootDirectory_shape (config config' : Config) :
  truthy (rootDirectory config) = false ->
  settled (ensureRootDirectory cwd io config) = Resolved config' ->
  exists root,
    rootDirectory config' = JStr root
    /\ Path.trailingSlash root = true
    /\ Path.isAbsolute root = false
    /\ Path.nonempty root = true.
Proof.
  intros Hunset. unfold ensureRootDirectory, call. rewrite Hunset. simpl.
  destruct (askForRootOfWebApp io) as [rDirectory|]; simpl; [|discriminate].
  intros [= <-]. exists (prettyRoot cwd rDirectory).
  split; [reflexivity|]. unfold prettyRoot, Path.join.
  set (rel := Path.relative cwd cwd rDirectory).
  set (p := fold_left Path.glue ["."; rel; Path.sep] "").
  assert (Hp : Path.isAbsolute p = false /\ Path.trailingSlash p = true).
  { assert (Hglue : p = if Path.nonempty rel
                        then "./" ++ (rel ++ "//") else ".//").
    { unfold p. cbn [fold_left]. unfold Path.glue.
      destruct (Path.nonempty rel); reflexivity. }
    rewrite Hglue. destruct (Path.nonempty rel); [|split; reflexivity].
    split; [reflexivity|].
    rewrite (PathFacts.trailingSlash_app "./" (rel ++ "//"))
      by (destruct rel; discriminate).
    now rewrite (PathFacts.trailingSlash_app rel "//") by discriminate. }
  destruct Hp as [Habs Htr].
  destruct (PathShape.normalize_relative_dir p Habs Htr) as [H1 H2].
  split; [exact H1|]. split; [exact H2|]. apply PathShape.normalize_nonempty.
Qed.

(** X13: from an absolute working directory, with no saved
    configuration, a directory name [d] as root and a file name [f] as
    service-worker name, the assembled configuration has
    [rootDirectory] [d/], [dest] [d/f] and [globIgnores] [[d/f]], and
    its single glob pattern is built from [d/]. *)
Theorem generateSW_fresh_config (d f : string) (exts : list string) :
  Path.isAbsolute cwd = true ->
  simpleName d = true -> simpleName f = true ->
  getConfigFile io = Resolved None ->
  askForRootOfWebApp io = Resolved d ->
  askForExtensionsToCache io (JStr (d ++ "/")) = Resolved exts ->
  askForServiceWorkerName io = Resolved f ->
  assemble' =
  ([GetConfigFile; AskForRootOfWebApp;
    AskForExtensionsToCache (JStr (d ++ "/")); AskForServiceWorkerName],
   Resolved
     (mkConfig (JStr (d ++ "/"))
               (jstrings [generateGlobPattern (JStr (d ++ "/")) exts])
               (jstrings [d ++ "/" ++ f]) (JStr (d ++ "/" ++ f)) JUndefined)).
Proof.
  intros Habs Hd Hf Hget Hroot Hexts Hname.
  assert (Hpretty : prettyRoot cwd d = d ++ "/")
    by now apply prettyRoot_simple_name.
  unfold assembleConfig, loadSavedConfig, ensureRootDirectory,
    ensureGlobPatterns, ensureDest, call.
  rewrite Hget. simpl. rewrite Hroot. simpl. rewrite Hpretty, Hexts. simpl.
  rewrite Hname. simpl. rewrite (PathShape.join_dir_file d f Hd Hf).
  reflexivity.
Qed.

End ManifestShape.

(** ** The save step and failures around it *)
Section SaveStep.

Variable generateGlobPattern : jsval -> list string -> string.
Variable cwd : string.
Variable io : Collaborators.

Local Abbreviation generateSW' := (_generateSW generateGlobPattern cwd io).
Local Abbreviation assemble' := (assembleConfig generateGlobPattern cwd io).

Lemma assemble_no_ask_save :
  Forall (fun e => match e with AskSaveConfigFile => False | _ => True end)
         (trace assemble').
Proof.
  unfold assembleConfig, loadSavedConfig, ensureRootDirectory,
    ensureGlobPatterns, ensureDest.
  repeat match goal with
         | |- Forall _ (trace (andThen _ _)) =>
             apply Forall_andThen; [|intros ?]
         | |- Forall _ (trace (if ?b then _ else _)) => destruct b
         | |- Forall _ (trace (match ?x with _ => _ end)) => destruct x
         | |- Forall _ (trace (call _ _)) => apply Forall_call; exact I
         | |- Forall _ (trace (ret _)) => constructor
         | |- Forall _ (trace reject) => constructor
         end.
Qed.

(** X14: a failure of the config store stops [_generateSW]: when the
    saved configuration cannot be read nothing else is attempted (no
    fallback to the prompts), and when writing the configuration fails
    the service-worker delegate is never called. *)
Theorem generateSW_store_failure :
  (getConfigFile io = Rejected -> generateSW' = ([GetConfigFile], Rejected))
  /\ (forall config,
         In (SaveConfigFile config) (trace generateSW') ->
         saveConfigFile io config = Rejected ->
         settled generateSW' = Rejected
         /\ forall config', ~ In (GenerateSW config') (trace generateSW')).
Proof.
  split.
  - intros Hget.
    unfold _generateSW, assembleConfig, loadSavedConfig, call.
    now rewrite Hget.
  - intros config Hin Hfail.
    assert (H : settled assemble' = Resolved config
                /\ truthy (wasSaved config) = false
                /\ askSaveConfigFile io = Resolved true).
    { revert Hin. rewrite generateSW_split, trace_andThen, in_app_iff.
      intros [H|H].
      - now apply (not_in_of_Forall_false isSave _ _
                     (assemble_no_save generateGlobPattern cwd io)) in H.
      - destruct (settled assemble') as [c0|]; [|destruct H].
        apply save_in_finish in H as (-> & Hw & Hyes). auto. }
    destruct H as (Hasm & Hw & Hyes).
    assert (Hfin : finish io config =
                   ([AskSaveConfigFile; SaveConfigFile config], Rejected)).
    { unfold finish, askWhetherToSave, saveIfAsked, call.
      now rewrite Hw, Hyes, Hfail. }
    split.
    + now rewrite generateSW_split, settled_andThen, Hasm, Hfin.
    + intros config'. rewrite generateSW_split, trace_andThen, Hasm, Hfin.
      rewrite in_app_iff. intros [H|H].
      * now apply (not_in_of_Forall_false isDelegate _ _
                     (assemble_no_delegate generateGlobPattern cwd io)) in H.
      * simpl in H. intuition discriminate.
Qed.

(** X15: the save question is asked exactly when no saved configuration
    was loaded and the configuration could be assembled; a loaded
    configuration is never offered for saving again. *)
Theorem generateSW_asks_to_save_iff :
  In AskSaveConfigFile (trace generateSW') <->
  getConfigFile io = Resolved None
  /\ exists config, settled assemble' = Resolved config.
Proof.
  rewrite generateSW_split, trace_andThen, in_app_iff. split.
  - intros [H|H].
    + pose proof assemble_no_ask_save as Hno.
      rewrite Forall_forall in Hno. destruct (Hno _ H).
    + destruct (settled assemble') as [config|] eqn:Hasm; [|destruct H].
      destruct (assemble_resolved _ _ _ _ Hasm) as (savedConfig & Hget & Hw & _).
      assert (Hflag : truthy (wasSaved config) = false).
      { revert H. unfold finish, askWhetherToSave, saveIfAsked, call.
        destruct (truthy (wasSaved config)); [|reflexivity].
        simpl. intuition discriminate. }
      rewrite Hw in Hflag. destruct savedConfig; [discriminate Hflag|].
      split; [exact Hget|eauto].
  - intros (Hget & config & Hasm). right. rewrite Hasm.
    destruct (assemble_resolved _ _ _ _ Hasm) as (savedConfig & Hget' & Hw & _).
    replace savedConfig with (@None Config) in Hw by congruence.
    unfold finish, askWhetherToSave. rewrite Hw.
    change (negb (truthy (wasSaved emptyConfig))) with true. cbv iota.
    rewrite trace_andThen. apply in_or_app. left. now left.
Qed.

End SaveStep.

(** ** The further statements at concrete runs *)

Lemma argv_flag_mode_status_witness :
  snd (argv "usage" "1.0.0" sampleGlob sampleCwd plainParser freshRun
            ["-v"]) = 0%Z.
Proof.
  apply (proj2 (argv_flag_mode_status "usage" "1.0.0" sampleGlob sampleCwd
                  plainParser freshRun ["-v"] eq_refl)).
  reflexivity.
Defined.

Lemma argv_flag_mode_no_calls_witness :
  Forall (fun e => isCollaboratorCall e = false)
         (fst (argv "usage" "1.0.0" sampleGlob sampleCwd plainParser
                    freshRun ["--help"])).
Proof.
  apply (argv_flag_mode_no_calls "usage" "1.0.0" sampleGlob sampleCwd
           plainParser freshRun ["--help"]).
  reflexivity.
Defined.

Lemma argv_first_token_only_witness :
  argv "usage" "1.0.0" sampleGlob sampleCwd plainParser savedRun
       ["generate:sw"; "now"] =
  argv "usage" "1.0.0" sampleGlob sampleCwd plainParser savedRun
       ["generate:sw"; "--version"].
Proof.
  apply (argv_first_token_only "usage" "1.0.0" sampleGlob sampleCwd
           plainParser savedRun ["generate:sw"; "now"]
           ["generate:sw"; "--version"] (JStr "generate:sw") [JStr "now"] []).
  - reflexivity.
  - reflexivity.
Defined.

Lemma generateSW_delegate_last_witness :
  exists config,
    In (GenerateSW config) (trace (_generateSW sampleGlob sampleCwd freshRun))
    /\ generateSW freshRun config = Resolved tt.
Proof.
  apply (proj2 (generateSW_delegate_last sampleGlob sampleCwd freshRun)).
  reflexivity.
Defined.

Lemma generateSW_resolves_witness :
  settled (_generateSW sampleGlob sampleCwd freshRun) = Resolved tt
  /\ settled (_generateSW sampleGlob sampleCwd numericRootRun) <> Resolved tt.
Proof.
  split.
  - apply (proj2 (generateSW_resolves sampleGlob sampleCwd freshRun None
                    eq_refl eq_refl (fun _ => eq_refl) eq_refl eq_refl
                    (fun _ => eq_refl) (fun _ => eq_refl))).
    reflexivity.
  - intros H.
    apply (proj1 (proj1 (generateSW_resolves sampleGlob sampleCwd numericRootRun
                           (Some numericRootConfig)
                           eq_refl eq_refl (fun _ => eq_refl) eq_refl eq_refl
                           (fun _ => eq_refl) (fun _ => eq_refl)))) in H.
    + discriminate H.
    + reflexivity.
    + reflexivity.
Defined.

Lemma generateSW_delegate_complete_witness :
  complete (set_wasSaved true completeConfig) = true.
Proof.
  apply (generateSW_delegate_complete sampleGlob sampleCwd savedRun).
  right. left. reflexivity.
Defined.

Lemma generateSW_keeps_saved_fields_witness :
  (wasSaved (set_wasSaved true bareConfig) = JBool true
   /\ dest (set_wasSaved true bareConfig) = dest bareConfig)
  /\ exists swDest,
      JStr "build/sw.js" = JStr swDest
      /\ jstrings ["build/sw.js"] = jstrings [swDest].
Proof.
  split.
  - destruct (generateSW_keeps_saved_fields sampleGlob sampleCwd bareRun
                bareConfig (set_wasSaved true bareConfig) eq_refl)
      as (Hw & _ & _ & Hd & _).
    + right. left. reflexivity.
    + split; [exact Hw|]. now apply Hd.
  - destruct (generateSW_keeps_saved_fields sampleGlob sampleCwd
                staleIgnoresRun staleIgnoresConfig
                (mkConfig (JStr "build/") (jstrings ["build/**/*.js"])
                          (jstrings ["build/sw.js"]) (JStr "build/sw.js")
                          (JBool true))
                eq_refl)
      as (_ & _ & _ & _ & Hfresh).
    + do 2 right. left. reflexivity.
    + apply Hfresh. reflexivity.
Defined.

Lemma generateSW_saved_config_witness :
  wasSaved completeConfig = JUndefined /\ complete completeConfig = true.
Proof.
  destruct (generateSW_saved_config sampleGlob sampleCwd savingRun
              completeConfig) as (Hw & Hc & _).
  - do 5 right. left. reflexivity.
  - split; assumption.
Defined.

Lemma generateSW_save_then_load_witness :
  _generateSW sampleGlob sampleCwd savedRun =
  ([GetConfigFile; GenerateSW (set_wasSaved true completeConfig)],
   Resolved tt).
Proof.
  apply (generateSW_save_then_load sampleGlob sampleCwd savingRun savedRun
           completeConfig).
  - do 5 right. left. reflexivity.
  - reflexivity.
Defined.

Lemma generateBuildManifest_delegate_iff_witness :
  exists config,
    In (GenerateFileManifest config)
       (trace (_generateBuildManifest sampleGlob freshRun)).
Proof.
  apply (proj1 (generateBuildManifest_delegate_iff sampleGlob freshRun)).
  exists "build", ["js"; "css"], "manifest.js". repeat split.
Defined.

Lemma rootDirectory_shape_witness :
  exists root,
    rootDirectory (set_rootDirectory "build/" emptyConfig) = JStr root
    /\ Path.trailingSlash root = true
    /\ Path.isAbsolute root = false
    /\ Path.nonempty root = true.
Proof.
  apply (rootDirectory_shape sampleCwd freshRun emptyConfig).
  - reflexivity.
  - reflexivity.
Defined.

Lemma generateSW_fresh_config_witness :
  assembleConfig sampleGlob sampleCwd freshRun =
  ([GetConfigFile; AskForRootOfWebApp; AskForExtensionsToCache (JStr "build/");
    AskForServiceWorkerName],
   Resolved (mkConfig (JStr "build/") (jstrings ["build/**/*.{js,css}"])
                      (jstrings ["build/sw.js"]) (JStr "build/sw.js") JUndefined)).
Proof.
  apply (generateSW_fresh_config sampleGlob sampleCwd freshRun "build" "sw.js"
           ["js"; "css"]); reflexivity.
Defined.

Lemma generateSW_store_failure_witness :
  settled (_generateSW sampleGlob sampleCwd failingSaveRun) = Rejected
  /\ forall config',
      ~ In (GenerateSW config')
           (trace (_generateSW sampleGlob sampleCwd failingSaveRun)).
Proof.
  apply (proj2 (generateSW_store_failure sampleGlob sampleCwd failingSaveRun)
           completeConfig).
  - do 5 right. left. reflexivity.
  - reflexivity.
Defined.

Lemma generateSW_asks_to_save_iff_witness :
  In AskSaveConfigFile (trace (_generateSW sampleGlob sampleCwd freshRun)).
Proof.
  apply (proj2 (generateSW_asks_to_save_iff sampleGlob sampleCwd freshRun)).
  split; [reflexivity|]. eexists. reflexivity.
Defined.
